(** * pybake: project configuration, template catalog, renderers,
    materializer, command line

    A shallow embedding of [src/pybake/config.py], [src/pybake/templates.py],
    [src/pybake/project_generator.py] and [src/pybake/cli.py], and what
    holds of them.

    - Python [str] values are modelled by [string], read as the UTF-8 bytes
      of the text. [str.lower], [str.capitalize] and [str.split] are
      embedded with their behaviour on ASCII characters (the bytes of other
      characters are neither cased nor whitespace here), so what is proved
      of [package_name] and [class_name] is proved of ASCII project names.
    - Exceptions are values of [exn]; a call that may raise returns a
      [result].
    - The file system is a tree of directories and regular files, without
      links, permissions, quotas and limits on the length of names. It is
      an explicit state threaded through the materializer, and it survives
      a raise: what was written before stays written.
    - The terminal is the list of what the commands have sent to it. The
      user is a pair of functions that give the value [Confirm.ask] and
      [Prompt.ask] return, from what the terminal has shown so far; the
      user answers every question, and does not interrupt. *)

From stdpp Require Import gmap strings list fin_maps.
From Stdlib Require Import Ascii String.

(** ** Exceptions and results *)

Inductive exn : Type :=
  | ValueError (msg : string)
  | FileNotFoundError
  | FileExistsError
  | NotADirectoryError
  | IsADirectoryError.

Inductive result (A : Type) : Type :=
  | Ok (a : A)
  | Raise (e : exn).
Arguments Ok {A} a.
Arguments Raise {A} e.

Definition is_ok {A} (r : result A) : bool :=
  match r with Ok _ => true | Raise _ => false end.

(** ** Python string primitives *)

Module Str.

(** The one-character string holding the double quote. *)
Definition dquote : string := String "034"%char EmptyString.

Definition isupper (c : ascii) : bool :=
  let n := nat_of_ascii c in (65 <=? n) && (n <=? 90).

Definition islower (c : ascii) : bool :=
  let n := nat_of_ascii c in (97 <=? n) && (n <=? 122).

Definition isdigit (c : ascii) : bool :=
  let n := nat_of_ascii c in (48 <=? n) && (n <=? 57).

(** [str.isspace] on one ASCII character: TAB, LF, VT, FF, CR,
    FS, GS, RS, US and the space. *)
Definition isspace (c : ascii) : bool :=
  let n := nat_of_ascii c in
  ((9 <=? n) && (n <=? 13)) || ((28 <=? n) && (n <=? 32)).

Definition to_lower (c : ascii) : ascii :=
  if isupper c then ascii_of_nat (nat_of_ascii c + 32) else c.

Definition to_upper (c : ascii) : ascii :=
  if islower c then ascii_of_nat (nat_of_ascii c - 32) else c.

(** [s.lower()] *)
Fixpoint lower (s : string) : string :=
  match s with
  | EmptyString => EmptyString
  | String c s' => String (to_lower c) (lower s')
  end.

(** [s.capitalize()]: first character upper-cased, the rest lower-cased. *)
Definition capitalize (s : string) : string :=
  match s with
  | EmptyString => EmptyString
  | String c s' => String (to_upper c) (lower s')
  end.

(** [s.replace(old, new)] for a one-character [old]. *)
Fixpoint replace (old : ascii) (new : string) (s : string) : string :=
  match s with
  | EmptyString => EmptyString
  | String c s' =>
      if Ascii.eqb c old then new +:+ replace old new s'
      else String c (replace old new s')
  end.

(** The scanning loop of [s.split()] (no separator argument): [cur] is the
    word being read, if any; a whitespace character closes it. *)
Fixpoint split_go (cur : option string) (s : string) : list string :=
  match s with
  | EmptyString =>
      match cur with Some w => [w] | None => [] end
  | String c s' =>
      if isspace c then
        match cur with
        | Some w => w :: split_go None s'
        | None => split_go None s'
        end
      else
        split_go (Some (default EmptyString cur +:+ String c EmptyString)) s'
  end.

(** [s.split()] *)
Definition split (s : string) : list string := split_go None s.

(** [s.split(sep)] for one-character separators, here any character that
    satisfies [delim]: the pieces between separators, empty ones included,
    at least one. *)
Fixpoint split_on (delim : ascii → bool) (s : string) : list string :=
  match s with
  | EmptyString => [EmptyString]
  | String c s' =>
      if delim c then EmptyString :: split_on delim s'
      else
        match split_on delim s' with
        | w :: ws => String c w :: ws
        | [] => [String c EmptyString]
        end
  end.

(** [sep.join(words)] for the empty separator. *)
Fixpoint join (words : list string) : string :=
  match words with
  | [] => EmptyString
  | w :: ws => w +:+ join ws
  end.

(** Truthiness of a [str]: the empty string is falsy. *)
Definition truthy (s : string) : bool :=
  match s with EmptyString => false | String _ _ => true end.

(** [a or d] for [a : str | None]. *)
Definition or_else (a : option string) (d : string) : string :=
  match a with
  | Some s => if truthy s then s else d
  | None => d
  end.

(** Every character of [s] satisfies [p]. *)
Fixpoint all (p : ascii → bool) (s : string) : bool :=
  match s with
  | EmptyString => true
  | String c s' => p c && all p s'
  end.

(** [s] with every character replaced by its image under [f]. *)
Fixpoint map_chars (f : ascii → ascii) (s : string) : string :=
  match s with
  | EmptyString => EmptyString
  | String c s' => String (f c) (map_chars f s')
  end.


(** [n] copies of the character [c]. *)
Fixpoint repeat (c : ascii) (n : nat) : string :=
  match n with
  | O => EmptyString
  | S n' => String c (repeat c n')
  end.

(** A legal import name: a letter or underscore, then letters, digits and
    underscores. *)
Definition isalpha (c : ascii) : bool := isupper c || islower c.

Definition is_identifier (s : string) : bool :=
  match s with
  | EmptyString => false
  | String c s' =>
      (isalpha c || Ascii.eqb c "_")
      && all (λ a, isalpha a || isdigit a || Ascii.eqb a "_") s'
  end.

(** [needle in s] as a proposition. *)
Definition contains (s needle : string) : Prop :=
  ∃ pre post, s = pre +:+ needle +:+ post.

End Str.

(** ** config.py *)

Record ProjectConfig : Type := {
  name : string;
  python_version : string;
  description : string;
  author : option string;
  email : option string
}.

(** [ProjectConfig.__post_init__] *)
Definition __post_init__ (self : ProjectConfig) : result unit :=
  if negb (Str.truthy (name self)) then
    Raise (ValueError "Project name cannot be empty")
  else if negb (Str.truthy (python_version self)) then
    Raise (ValueError "Python version cannot be empty")
  else if negb (Str.truthy (description self)) then
    Raise (ValueError "Project description cannot be empty")
  else Ok tt.

(** The dataclass constructor: store the fields, then run [__post_init__]. *)
Definition new_ProjectConfig (name python_version description : string)
    (author email : option string) : result ProjectConfig :=
  let self := {| name := name; python_version := python_version;
                 description := description; author := author;
                 email := email |} in
  match __post_init__ self with
  | Ok _ => Ok self
  | Raise e => Raise e
  end.

(** A configuration that construction accepts. *)
Definition valid (c : ProjectConfig) : Prop := __post_init__ c = Ok tt.

(** [ProjectConfig.package_name] *)
Definition package_name (self : ProjectConfig) : string :=
  Str.lower
    (Str.replace " " "_"
       (Str.replace "-" "_" (name self))).

(** [ProjectConfig.class_name] *)
Definition class_name (self : ProjectConfig) : string :=
  Str.join
    (map Str.capitalize
       (Str.split (Str.replace "-" " " (name self)))).

(** *** The derived names as the specification words them *)

(** [name] with dash and space replaced by underscore, then lowercased. *)
Definition package_name_as_specified (name : string) : string :=
  Str.lower
    (Str.map_chars
       (λ c, if Ascii.eqb c "-" || Ascii.eqb c " " then "_"%char else c)
       name).

(** [name] split at every character that satisfies [delim], each word
    capitalized, the words concatenated. *)
Definition class_name_split_at (delim : ascii → bool) (name : string) : string :=
  Str.join (map Str.capitalize (Str.split_on delim name)).

(** The separators in the words of the specification: dash and space. *)
Definition dash_or_space (c : ascii) : bool :=
  Ascii.eqb c "-" || Ascii.eqb c " ".

(** The separators of the code: dash and every whitespace character. *)
Definition dash_or_whitespace (c : ascii) : bool :=
  Ascii.eqb c "-" || Str.isspace c.

(** ** templates.py *)

(** One catalog entry: the dict with the keys [name], [description] and
    [features]. *)
Record Template : Type := {
  template_name : string;
  template_description : string;
  features : list string
}.

Definition standard_template : Template := {|
  template_name := "Standard Python Project";
  template_description := "Complete Python project with all modern tools";
  features := [
    "uv for dependency management";
    "pyright for static analysis";
    "ruff for linting and formatting";
    "beartype for runtime type checking";
    "pytest for testing";
    "pre-commit for git hooks";
    "GitHub Actions for CI/CD"
  ]
|}.

Definition minimal_template : Template := {|
  template_name := "Minimal Python Project";
  template_description := "Basic Python project with essential tools";
  features := [
    "uv for dependency management";
    "ruff for linting and formatting";
    "pytest for testing"
  ]
|}.

Definition web_template : Template := {|
  template_name := "Web Application";
  template_description := "Python web application template";
  features := [
    "FastAPI or Flask web framework";
    "uv for dependency management";
    "pyright for static analysis";
    "ruff for linting and formatting";
    "beartype for runtime type checking";
    "pytest for testing";
    "pre-commit for git hooks";
    "GitHub Actions for CI/CD"
  ]
|}.

(** [get_project_templates()] *)
Definition get_project_templates : gmap string Template :=
  <["standard" := standard_template]>
    (<["minimal" := minimal_template]>
       (<["web" := web_template]> ∅)).

(** [get_template_config(template_name)] *)
Definition get_template_config (template_name : string) : result Template :=
  let templates := get_project_templates in
  match templates !! template_name with
  | None => Raise (ValueError ("Unknown template: " +:+ template_name))
  | Some t => Ok t
  end.

(** ** project_generator.py: the generator object and its renderers *)

(** [ProjectGenerator]: the two attributes [__init__] sets. *)
Record ProjectGenerator : Type := {
  config : ProjectConfig;
  templates : gmap string Template
}.

(** [ProjectGenerator.__init__] *)
Definition new_ProjectGenerator (config : ProjectConfig) : ProjectGenerator :=
  {| config := config; templates := get_project_templates |}.

(** The double quote and the line feed, the two characters of the
    templates written by code. *)
Definition dq : string := Str.dquote.
Definition nl : string := String "010"%char EmptyString.

(** [ProjectGenerator._get_pyproject_content] *)
Definition _get_pyproject_content (self : ProjectGenerator) : string :=
  Str.join [
    "[project]"; nl;
    "name = "; dq; name (config self); dq; nl;
    "version = "; dq; "0.1.0"; dq; nl;
    "description = "; dq; description (config self); dq; nl;
    "readme = "; dq; "README.md"; dq; nl;
    "requires-python = "; dq; ">="; python_version (config self); dq; nl;
    "authors = ["; nl;
    "    {name = "; dq; Str.or_else (author (config self)) "Your Name"; dq; ", email = "; dq; Str.or_else (email (config self)) "your.email@example.com"; dq; "}"; nl;
    "]"; nl;
    "dependencies = ["; nl;
    "    "; dq; "beartype>=0.16.0"; dq; ","; nl;
    "]"; nl;
    nl;
    "[project.optional-dependencies]"; nl;
    "dev = ["; nl;
    "    "; dq; "pytest>=7.0.0"; dq; ","; nl;
    "    "; dq; "pytest-cov>=4.0.0"; dq; ","; nl;
    "    "; dq; "ruff>=0.12.9"; dq; ","; nl;
    "    "; dq; "pyright>=1.1.0"; dq; ","; nl;
    "    "; dq; "pre-commit>=3.0.0"; dq; ","; nl;
    "]"; nl;
    nl;
    "[build-system]"; nl;
    "requires = ["; dq; "hatchling"; dq; "]"; nl;
    "build-backend = "; dq; "hatchling.build"; dq; nl;
    nl;
    "[tool.ruff]"; nl;
    "target-version = "; dq; "py"; Str.replace "." "" (python_version (config self)); dq; nl;
    "line-length = 88"; nl;
    "lint.select = ["; nl;
    "    "; dq; "E"; dq; ",  # pycodestyle errors"; nl;
    "    "; dq; "W"; dq; ",  # pycodestyle warnings"; nl;
    "    "; dq; "F"; dq; ",  # pyflakes"; nl;
    "    "; dq; "I"; dq; ",  # isort"; nl;
    "    "; dq; "B"; dq; ",  # flake8-bugbear"; nl;
    "    "; dq; "C4"; dq; ", # flake8-comprehensions"; nl;
    "    "; dq; "UP"; dq; ", # pyupgrade"; nl;
    "]"; nl;
    "lint.ignore = ["; dq; "E501"; dq; "]"; nl;
    nl;
    "[tool.ruff.format]"; nl;
    "quote-style = "; dq; "double"; dq; nl;
    "indent-style = "; dq; "space"; dq; nl;
    "skip-magic-trailing-comma = false"; nl;
    "line-ending = "; dq; "auto"; dq; nl;
    nl;
    "[tool.pyright]"; nl;
    "include = ["; dq; "src"; dq; "]"; nl;
    "exclude = ["; nl;
    "    "; dq; "**/node_modules"; dq; ","; nl;
    "    "; dq; "**/__pycache__"; dq; ","; nl;
    "    "; dq; ".venv"; dq; ","; nl;
    "    "; dq; ".git"; dq; ","; nl;
    "]"; nl;
    "reportMissingImports = "; dq; "warning"; dq; nl;
    "reportMissingTypeStubs = false"; nl;
    "pythonVersion = "; dq; python_version (config self); dq; nl;
    nl;
    "[tool.pytest.ini_options]"; nl;
    "testpaths = ["; dq; "tests"; dq; "]"; nl;
    "python_files = ["; dq; "test_*.py"; dq; "]"; nl;
    "python_classes = ["; dq; "Test*"; dq; "]"; nl;
    "python_functions = ["; dq; "test_*"; dq; "]"; nl;
    "addopts = ["; nl;
    "    "; dq; "--strict-markers"; dq; ","; nl;
    "    "; dq; "--strict-config"; dq; ","; nl;
    "    "; dq; "--cov=src"; dq; ","; nl;
    "    "; dq; "--cov-report=term-missing"; dq; ","; nl;
    "    "; dq; "--cov-report=html"; dq; ","; nl;
    "    "; dq; "--cov-report=xml"; dq; ","; nl;
    "]"; nl;
    nl;
    "[tool.coverage.run]"; nl;
    "source = ["; dq; "src"; dq; "]"; nl;
    "omit = ["; nl;
    "    "; dq; "*/tests/*"; dq; ","; nl;
    "    "; dq; "*/test_*"; dq; ","; nl;
    "]"; nl
  ].

(** [ProjectGenerator._get_gitignore_content] *)
Definition _get_gitignore_content (self : ProjectGenerator) : string :=
  Str.join [
    "# Byte-compiled / optimized / DLL files"; nl;
    "__pycache__/"; nl;
    "*.py[cod]"; nl;
    "*$py.class"; nl;
    nl;
    "# C extensions"; nl;
    "*.so"; nl;
    nl;
    "# Distribution / packaging"; nl;
    ".Python"; nl;
    "build/"; nl;
    "develop-eggs/"; nl;
    "dist/"; nl;
    "downloads/"; nl;
    "eggs/"; nl;
    ".eggs/"; nl;
    "lib/"; nl;
    "lib64/"; nl;
    "parts/"; nl;
    "sdist/"; nl;
    "var/"; nl;
    "wheels/"; nl;
    "share/python-wheels/"; nl;
    "*.egg-info/"; nl;
    ".installed.cfg"; nl;
    "*.egg"; nl;
    "MANIFEST"; nl;
    nl;
    "# PyInstaller"; nl;
    "*.manifest"; nl;
    "*.spec"; nl;
    nl;
    "# Installer logs"; nl;
    "pip-log.txt"; nl;
    "pip-delete-this-directory.txt"; nl;
    nl;
    "# Unit test / coverage reports"; nl;
    "htmlcov/"; nl;
    ".tox/"; nl;
    ".nox/"; nl;
    ".coverage"; nl;
    ".coverage.*"; nl;
    ".cache"; nl;
    "nosetests.xml"; nl;
    "coverage.xml"; nl;
    "*.cover"; nl;
    "*.py,cover"; nl;
    ".hypothesis/"; nl;
    ".pytest_cache/"; nl;
    "cover/"; nl;
    nl;
    "# Translations"; nl;
    "*.mo"; nl;
    "*.pot"; nl;
    nl;
    "# Django stuff:"; nl;
    "*.log"; nl;
    "local_settings.py"; nl;
    "db.sqlite3"; nl;
    "db.sqlite3-journal"; nl;
    nl;
    "# Flask stuff:"; nl;
    "instance/"; nl;
    ".webassets-cache"; nl;
    nl;
    "# Scrapy stuff:"; nl;
    ".scrapy"; nl;
    nl;
    "# Sphinx documentation"; nl;
    "docs/_build/"; nl;
    nl;
    "# PyBuilder"; nl;
    ".pybuilder/"; nl;
    "target/"; nl;
    nl;
    "# Jupyter Notebook"; nl;
    ".ipynb_checkpoints"; nl;
    nl;
    "# IPython"; nl;
    "profile_default/"; nl;
    "ipython_config.py"; nl;
    nl;
    "# pyenv"; nl;
    ".python-version"; nl;
    nl;
    "# pipenv"; nl;
    "Pipfile.lock"; nl;
    nl;
    "# poetry"; nl;
    "poetry.lock"; nl;
    nl;
    "# pdm"; nl;
    ".pdm.toml"; nl;
    nl;
    "# PEP 582"; nl;
    "__pypackages__/"; nl;
    nl;
    "# Celery stuff"; nl;
    "celerybeat-schedule"; nl;
    "celerybeat.pid"; nl;
    nl;
    "# SageMath parsed files"; nl;
    "*.sage.py"; nl;
    nl;
    "# Environments"; nl;
    ".env"; nl;
    ".venv"; nl;
    "env/"; nl;
    "venv/"; nl;
    "ENV/"; nl;
    "env.bak/"; nl;
    "venv.bak/"; nl;
    nl;
    "# Spyder project settings"; nl;
    ".spyderproject"; nl;
    ".spyproject"; nl;
    nl;
    "# Rope project settings"; nl;
    ".ropeproject"; nl;
    nl;
    "# mkdocs documentation"; nl;
    "/site"; nl;
    nl;
    "# mypy"; nl;
    ".mypy_cache/"; nl;
    ".dmypy.json"; nl;
    "dmypy.json"; nl;
    nl;
    "# Pyre type checker"; nl;
    ".pyre/"; nl;
    nl;
    "# pytype static type analyzer"; nl;
    ".pytype/"; nl;
    nl;
    "# Cython debug symbols"; nl;
    "cython_debug/"; nl;
    nl;
    "# PyCharm"; nl;
    ".idea/"; nl;
    nl;
    "# VS Code"; nl;
    ".vscode/"; nl;
    nl;
    "# macOS"; nl;
    ".DS_Store"; nl;
    nl;
    "# Windows"; nl;
    "Thumbs.db"; nl;
    "ehthumbs.db"; nl;
    "Desktop.ini"; nl;
    nl;
    "# uv"; nl;
    ".uv/"; nl;
    "uv.lock"; nl
  ].

(** [ProjectGenerator._get_readme_content] *)
Definition _get_readme_content (self : ProjectGenerator) : string :=
  Str.join [
    "# "; name (config self); nl;
    nl;
    description (config self); nl;
    nl;
    "## Requirements"; nl;
    nl;
    "- Python "; python_version (config self); "+"; nl;
    "- uv (recommended) or pip"; nl;
    nl;
    "## Installation"; nl;
    nl;
    "1. Clone the repository:"; nl;
    "   ```bash"; nl;
    "   git clone <your-repo-url>"; nl;
    "   cd "; name (config self); nl;
    "   ```"; nl;
    nl;
    "2. Install dependencies:"; nl;
    "   ```bash"; nl;
    "   uv sync"; nl;
    "   ```"; nl;
    nl;
    "3. Activate virtual environment:"; nl;
    "   ```bash"; nl;
    "   uv shell"; nl;
    "   ```"; nl;
    nl;
    "## Development"; nl;
    nl;
    "### Running tests"; nl;
    "```bash"; nl;
    "pytest"; nl;
    "```"; nl;
    nl;
    "### Code quality"; nl;
    "```bash"; nl;
    "ruff check ."; nl;
    "ruff format ."; nl;
    "```"; nl;
    nl;
    "### Type checking"; nl;
    "```bash"; nl;
    "pyright"; nl;
    "```"; nl;
    nl;
    "### Pre-commit hooks"; nl;
    "```bash"; nl;
    "pre-commit install"; nl;
    "pre-commit run --all-files"; nl;
    "```"; nl;
    nl;
    "## Project Structure"; nl;
    nl;
    "```"; nl;
    name (config self); "/"; nl;
    "├── src/"; nl;
    "│   └── "; package_name (config self); "/"; nl;
    "│       ├── __init__.py"; nl;
    "│       └── main.py"; nl;
    "├── tests/"; nl;
    "│   ├── __init__.py"; nl;
    "│   └── test_"; package_name (config self); ".py"; nl;
    "├── .github/workflows/"; nl;
    "├── pyproject.toml"; nl;
    "└── .pre-commit-config.yaml"; nl;
    "```"; nl;
    nl;
    "## Contributing"; nl;
    nl;
    "1. Fork the repository"; nl;
    "2. Create a feature branch"; nl;
    "3. Make your changes"; nl;
    "4. Run tests and quality checks"; nl;
    "5. Submit a pull request"; nl;
    nl;
    "## License"; nl;
    nl;
    "This project is licensed under the MIT License - see the LICENSE file for details."; nl;
    nl;
    "## Author"; nl;
    nl;
    Str.or_else (author (config self)) "Your Name"; " - "; Str.or_else (email (config self)) "your.email@example.com"; nl
  ].

(** [ProjectGenerator._get_precommit_content] *)
Definition _get_precommit_content (self : ProjectGenerator) : string :=
  Str.join [
    "repos:"; nl;
    "  - repo: https://github.com/pre-commit/pre-commit-hooks"; nl;
    "    rev: v4.5.0"; nl;
    "    hooks:"; nl;
    "      - id: trailing-whitespace"; nl;
    "      - id: end-of-file-fixer"; nl;
    "      - id: check-yaml"; nl;
    "      - id: check-added-large-files"; nl;
    "      - id: check-merge-conflict"; nl;
    nl;
    "  - repo: https://github.com/astral-sh/ruff-pre-commit"; nl;
    "    rev: v0.12.9"; nl;
    "    hooks:"; nl;
    "      - id: ruff"; nl;
    "        args: [--fix]"; nl;
    "      - id: ruff-format"; nl;
    nl;
    "  - repo: https://github.com/pre-commit/mirrors-mypy"; nl;
    "    rev: v1.8.0"; nl;
    "    hooks:"; nl;
    "      - id: mypy"; nl;
    "        additional_dependencies: [types-all]"; nl
  ].

(** [ProjectGenerator._get_github_actions_content] *)
Definition _get_github_actions_content (self : ProjectGenerator) : string :=
  Str.join [
    "name: CI"; nl;
    nl;
    "on:"; nl;
    "  push:"; nl;
    "    branches: [ main, develop ]"; nl;
    "  pull_request:"; nl;
    "    branches: [ main, develop ]"; nl;
    nl;
    "jobs:"; nl;
    "  test:"; nl;
    "    runs-on: ubuntu-latest"; nl;
    "    strategy:"; nl;
    "      matrix:"; nl;
    "        python-version: ["; dq; python_version (config self); dq; "]"; nl;
    nl;
    "    steps:"; nl;
    "    - uses: actions/checkout@v4"; nl;
    "    "; nl;
    "    - name: Set up Python ${{ matrix.python-version }}"; nl;
    "      uses: actions/setup-python@v4"; nl;
    "      with:"; nl;
    "        python-version: ${{ matrix.python-version }}"; nl;
    "    "; nl;
    "    - name: Install uv"; nl;
    "      uses: astral-sh/setup-uv@v1"; nl;
    "      with:"; nl;
    "        version: latest"; nl;
    "    "; nl;
    "    - name: Install dependencies"; nl;
    "      run: uv sync"; nl;
    "    "; nl;
    "    - name: Run linting"; nl;
    "      run: uv run ruff check ."; nl;
    "    "; nl;
    "    - name: Run formatting check"; nl;
    "      run: uv run ruff format --check ."; nl;
    "    "; nl;
    "    - name: Run type checking"; nl;
    "      run: uv run pyright"; nl;
    "    "; nl;
    "    - name: Run tests"; nl;
    "      run: uv run pytest --cov=src --cov-report=xml"; nl;
    "    "; nl;
    "    - name: Upload coverage to Codecov"; nl;
    "      uses: codecov/codecov-action@v3"; nl;
    "      with:"; nl;
    "        file: ./coverage.xml"; nl;
    "        fail_ci_if_error: false"; nl
  ].

(** [ProjectGenerator._get_init_content] *)
Definition _get_init_content (self : ProjectGenerator) : string :=
  Str.join [
    dq; dq; dq; "Package "; name (config self); "."; dq; dq; dq; nl;
    nl;
    "__version__ = "; dq; "0.1.0"; dq; nl;
    "__author__ = "; dq; Str.or_else (author (config self)) "Your Name"; dq; nl;
    "__email__ = "; dq; Str.or_else (email (config self)) "your.email@example.com"; dq; nl;
    nl;
    "from .main import main"; nl;
    nl;
    "__all__ = ["; dq; "main"; dq; "]"; nl
  ].

(** [ProjectGenerator._get_main_content] *)
Definition _get_main_content (self : ProjectGenerator) : string :=
  Str.join [
    dq; dq; dq; "Main module for "; name (config self); "."; dq; dq; dq; nl;
    nl;
    "from beartype import beartype"; nl;
    nl;
    nl;
    "@beartype"; nl;
    "def main() -> None:"; nl;
    "    "; dq; dq; dq; "Main function."; dq; dq; dq; nl;
    "    print("; dq; "Hello from "; name (config self); "!"; dq; ")"; nl;
    nl;
    nl;
    "if __name__ == "; dq; "__main__"; dq; ":"; nl;
    "    main()"; nl
  ].

(** [ProjectGenerator._get_test_content] *)
Definition _get_test_content (self : ProjectGenerator) : string :=
  Str.join [
    dq; dq; dq; "Tests for "; name (config self); "."; dq; dq; dq; nl;
    nl;
    "import pytest"; nl;
    "from "; package_name (config self); ".main import main"; nl;
    nl;
    nl;
    "def test_main(capsys):"; nl;
    "    "; dq; dq; dq; "Test main function output."; dq; dq; dq; nl;
    "    main()"; nl;
    "    captured = capsys.readouterr()"; nl;
    "    assert "; dq; name (config self); dq; " in captured.out"; nl;
    nl;
    nl;
    "def test_main_returns_none():"; nl;
    "    "; dq; dq; dq; "Test main function return value."; dq; dq; dq; nl;
    "    result = main()"; nl;
    "    assert result is None"; nl
  ].

(** ** pathlib: pure paths *)

(** A [PurePosixPath]: whether it starts at the root, and its components. *)
Record Path : Type := {
  anchored : bool;
  parts : list string
}.

(** [s.split("/")] *)
Definition split_slash (s : string) : list string :=
  Str.split_on (λ c, Ascii.eqb c "/") s.

(** A component pathlib keeps: neither empty nor the single dot. *)
Definition kept (c : string) : bool :=
  negb (String.eqb c EmptyString) && negb (String.eqb c ".").

Definition starts_with_slash (s : string) : bool :=
  match s with
  | String c _ => Ascii.eqb c "/"
  | EmptyString => false
  end.

(** [PurePosixPath(s)]: empty and single-dot components are dropped, a
    double dot is kept. *)
Definition parse_path (s : string) : Path :=
  {| anchored := starts_with_slash s;
     parts := filter (λ c, Is_true (kept c)) (split_slash s) |}.

(** [p / s]: a segment that starts at the root replaces [p]. *)
Definition joinpath (p : Path) (s : string) : Path :=
  let q := parse_path s in
  if anchored q then q
  else {| anchored := anchored p; parts := parts p ++ parts q |}.

Notation "p </> s" := (joinpath p s) (at level 40, left associativity).

(** [p.parent]: the path without its last component; the path itself when
    it has none. *)
Definition parent (p : Path) : Path :=
  {| anchored := anchored p; parts := removelast (parts p) |}.

(** ** The file system *)

(** What a location holds. *)
Inductive node : Type :=
  | Dir
  | File (content : string).

(** The tree of nodes, keyed by the components from the root directory (the
    root directory is the empty list), and the working directory. There
    are no links, permissions or quotas. *)
Record FileSystem : Type := {
  cwd : list string;
  nodes : gmap (list string) node
}.

Definition set_nodes (t : gmap (list string) node) (fs : FileSystem) : FileSystem :=
  {| cwd := cwd fs; nodes := t |}.

(** One step of path resolution from the directory [cur]. *)
Definition step (cur : list string) (c : string) : list string :=
  if String.eqb c ".." then removelast cur else cur ++ [c].

(** Resolution of the components [comps] from [cur]: every directory that
    is stepped through must exist; the location reached may not. *)
Fixpoint walk (t : gmap (list string) node) (cur : list string)
    (comps : list string) : result (list string) :=
  match comps with
  | [] => Ok cur
  | c :: rest =>
      match t !! cur with
      | Some Dir => walk t (step cur c) rest
      | Some (File _) => Raise NotADirectoryError
      | None => Raise FileNotFoundError
      end
  end.

Definition start (fs : FileSystem) (p : Path) : list string :=
  if anchored p then [] else cwd fs.

Definition resolve (fs : FileSystem) (p : Path) : result (list string) :=
  walk (nodes fs) (start fs p) (parts p).

(** A path with a NUL character cannot be passed to the system. *)
Definition has_nul (p : Path) : bool :=
  existsb (λ c, negb (Str.all (λ a, negb (Ascii.eqb a "000")) c)) (parts p).

(** [p.is_dir()] *)
Definition is_dir (p : Path) (fs : FileSystem) : bool :=
  if has_nul p then false
  else
    match resolve fs p with
    | Ok loc =>
        match nodes fs !! loc with
        | Some Dir => true
        | _ => false
        end
    | Raise _ => false
    end.

(** [p.read_text()] *)
Definition read_text (p : Path) (fs : FileSystem) : result string :=
  if has_nul p then Raise (ValueError "embedded null byte")
  else
    match resolve fs p with
    | Ok loc =>
        match nodes fs !! loc with
        | Some (File content) => Ok content
        | Some Dir => Raise IsADirectoryError
        | None => Raise FileNotFoundError
        end
    | Raise e => Raise e
    end.

(** ** Commands: state passing, the state survives a raise *)

Definition M (A : Type) : Type := FileSystem → result A * FileSystem.

Definition ret {A} (a : A) : M A := λ fs, (Ok a, fs).

Definition bind {A B} (m : M A) (k : A → M B) : M B :=
  λ fs,
    match m fs with
    | (Ok a, fs') => k a fs'
    | (Raise e, fs') => (Raise e, fs')
    end.

Notation "m1 >> m2" := (bind m1 (λ _, m2)) (at level 65, right associativity).

(** [for x in l: body(x)] *)
Fixpoint for_each {A} (l : list A) (body : A → M unit) : M unit :=
  match l with
  | [] => ret tt
  | x :: l' => body x >> for_each l' body
  end.

(** [os.mkdir(p)] *)
Definition os_mkdir (p : Path) : M unit :=
  λ fs,
    if has_nul p then (Raise (ValueError "embedded null byte"), fs)
    else
      match resolve fs p with
      | Raise e => (Raise e, fs)
      | Ok loc =>
          match nodes fs !! loc with
          | Some _ => (Raise FileExistsError, fs)
          | None => (Ok tt, set_nodes (<[loc := Dir]> (nodes fs)) fs)
          end
      end.

(** The handler [except OSError: if not exist_ok or not self.is_dir(): raise]
    of [Path.mkdir], for [exist_ok=True]; a [ValueError] is no [OSError]. *)
Definition unless_is_dir (p : Path) (e : exn) : M unit :=
  λ fs,
    match e with
    | ValueError _ => (Raise e, fs)
    | _ => if is_dir p fs then (Ok tt, fs) else (Raise e, fs)
    end.

(** [p.mkdir(parents=False, exist_ok=True)] *)
Definition mkdir_exist_ok (p : Path) : M unit :=
  λ fs,
    match os_mkdir p fs with
    | (Ok _, fs') => (Ok tt, fs')
    | (Raise FileNotFoundError, fs') => (Raise FileNotFoundError, fs')
    | (Raise e, fs') => unless_is_dir p e fs'
    end.

(** [p.mkdir(parents=True, exist_ok=True)], by recursion on the components
    of [p] from the last: [rparts] is [parts p] reversed. *)
Fixpoint mkdir_parents (a : bool) (rparts : list string) : M unit :=
  λ fs,
    let p := {| anchored := a; parts := rev rparts |} in
    match os_mkdir p fs with
    | (Ok _, fs') => (Ok tt, fs')
    | (Raise FileNotFoundError, fs') =>
        match rparts with
        | [] => (Raise FileNotFoundError, fs')
        | _ :: rparent => (mkdir_parents a rparent >> mkdir_exist_ok p) fs'
        end
    | (Raise e, fs') => unless_is_dir p e fs'
    end.

Definition Path_mkdir (p : Path) : M unit :=
  mkdir_parents (anchored p) (rev (parts p)).

(** [p.write_text(content, encoding="utf-8")]: the file is created or
    truncated, its directory must exist. *)
Definition write_text (p : Path) (content : string) : M unit :=
  λ fs,
    if has_nul p then (Raise (ValueError "embedded null byte"), fs)
    else
      match resolve fs p with
      | Raise e => (Raise e, fs)
      | Ok loc =>
          match nodes fs !! loc with
          | Some Dir => (Raise IsADirectoryError, fs)
          | _ => (Ok tt, set_nodes (<[loc := File content]> (nodes fs)) fs)
          end
      end.

(** ** project_generator.py: the materializer *)

(** [ProjectGenerator._create_directory_structure] *)
Definition _create_directory_structure (self : ProjectGenerator)
    (project_path : Path) : M unit :=
  let directories := [
    "src";
    "src/" +:+ package_name (config self);
    "tests";
    ".github";
    ".github/workflows"
  ] in
  for_each directories (λ directory, Path_mkdir (project_path </> directory)).

(** [ProjectGenerator._generate_file] *)
Definition _generate_file (path : Path) (filename : string) (content : string)
    : M unit :=
  let file_path := path </> filename in
  write_text file_path content.

(** [ProjectGenerator._generate_project_files] *)
Definition _generate_project_files (self : ProjectGenerator)
    (project_path : Path) : M unit :=
  _generate_file project_path "pyproject.toml" (_get_pyproject_content self) >>
  _generate_file project_path ".python-version" (python_version (config self)) >>
  _generate_file project_path ".gitignore" (_get_gitignore_content self) >>
  _generate_file project_path "README.md" (_get_readme_content self) >>
  _generate_file project_path ".pre-commit-config.yaml"
    (_get_precommit_content self) >>
  _generate_file (project_path </> ".github" </> "workflows") "ci.yml"
    (_get_github_actions_content self) >>
  _generate_file (project_path </> "src" </> package_name (config self))
    "__init__.py" (_get_init_content self) >>
  _generate_file (project_path </> "src" </> package_name (config self))
    "main.py" (_get_main_content self) >>
  _generate_file (project_path </> "tests") "__init__.py" EmptyString >>
  _generate_file (project_path </> "tests")
    ("test_" +:+ package_name (config self) +:+ ".py")
    (_get_test_content self).

(** [ProjectGenerator._make_scripts_executable] *)
Definition _make_scripts_executable (self : ProjectGenerator)
    (project_path : Path) : M unit :=
  ret tt.

(** [ProjectGenerator.create_project] *)
Definition create_project (self : ProjectGenerator) (project_path : Path)
    : M unit :=
  Path_mkdir project_path >>
  _create_directory_structure self project_path >>
  _generate_project_files self project_path >>
  _make_scripts_executable self project_path.

(** A file system with nothing but the root directory, which is also the
    working directory. *)
Definition empty_fs : FileSystem :=
  {| cwd := []; nodes := {[ [] := Dir ]} |}.

(** ** pathlib: what the command line asks of a path *)

(** [Path.cwd()] *)
Definition Path_cwd (fs : FileSystem) : Path :=
  {| anchored := true; parts := cwd fs |}.

(** [p.exists()]: whether the path leads to a file or a directory; a path
    that cannot be followed leads to nothing. *)
Definition Path_exists (p : Path) (fs : FileSystem) : bool :=
  if has_nul p then false
  else
    match resolve fs p with
    | Ok loc =>
        match nodes fs !! loc with
        | Some _ => true
        | None => false
        end
    | Raise _ => false
    end.

(** [p.absolute()]: a relative path is put after the working directory,
    its components as they are. *)
Definition Path_absolute (p : Path) (fs : FileSystem) : Path :=
  if anchored p then p
  else {| anchored := true; parts := cwd fs ++ parts p |}.

(** ["/".join(words)] *)
Fixpoint join_slash (words : list string) : string :=
  match words with
  | [] => EmptyString
  | [w] => w
  | w :: ws => w +:+ "/" +:+ join_slash ws
  end.

(** [str(p)] *)
Definition Path_str (p : Path) : string :=
  if anchored p then "/" +:+ join_slash (parts p)
  else
    match parts p with
    | [] => "."
    | _ => join_slash (parts p)
    end.

(** ** cli.py: the terminal *)

(** A [rich] table: its header options, its columns, each with its style,
    and its rows. *)
Record Table : Type := {
  show_header : bool;
  header_style : string;
  columns : list (string * option string);
  rows : list (list string)
}.

(** What a command raises: an exception of the program, or
    [typer.Exit(code)], which is an exception too. *)
Inductive raised : Type :=
  | Exception (e : exn)
  | Exit (code : nat).

Inductive outcome (A : Type) : Type :=
  | Returned (a : A)
  | Raised (e : raised).
Arguments Returned {A} a.
Arguments Raised {A} e.

(** What the terminal has been sent, one entry for each call of
    [console.print], [Confirm.ask], [Prompt.ask] and of the progress
    display; a question is kept with the reply it got. The text of
    [f"Error: {e}"] is kept as the exception [e]. *)
Inductive shown : Type :=
  | Printed (text : string) (style : option string)
  | PrintedError (e : raised) (style : option string)
  | PrintedPanel (text title border_style : string)
  | PrintedTable (table : Table)
  | Confirmed (prompt : string) (reply : bool)
  | Prompted (prompt default reply : string)
  | TaskAdded (description : string)
  | TaskUpdated (description : string).

(** The user at the terminal: what [Confirm.ask] and [Prompt.ask] return,
    given what the terminal has shown so far. *)
Record User : Type := {
  confirms : list shown → string → bool;
  replies : list shown → string → string → string
}.

(** The file system and the terminal. *)
Record World : Type := {
  files : FileSystem;
  screen : list shown
}.

Definition show (s : shown) (w : World) : World :=
  {| files := files w; screen := screen w ++ [s] |}.

(** Commands on the world; what was done before a raise stays done. *)
Definition C (A : Type) : Type := World → outcome A * World.

Definition unit_C {A} (a : A) : C A := λ w, (Returned a, w).

Definition bind_C {A B} (m : C A) (k : A → C B) : C B :=
  λ w,
    match m w with
    | (Returned a, w') => k a w'
    | (Raised e, w') => (Raised e, w')
    end.

Notation "'let*' x ':=' m 'in' k" := (bind_C m (λ x, k))
  (at level 10, x name, m at level 100, k at level 200).

Definition raise {A} (e : raised) : C A := λ w, (Raised e, w).

(** [try: body / except Exception as e: handler(e)] *)
Definition try_except {A} (body : C A) (handler : raised → C A) : C A :=
  λ w,
    match body w with
    | (Returned a, w') => (Returned a, w')
    | (Raised e, w') => handler e w'
    end.

(** A command of the file system, run on the files of the world. *)
Definition on_files {A} (m : M A) : C A :=
  λ w,
    match m (files w) with
    | (Ok a, fs) => (Returned a, {| files := fs; screen := screen w |})
    | (Raise e, fs) =>
        (Raised (Exception e), {| files := fs; screen := screen w |})
    end.

(** The value of a call that may raise. *)
Definition of_result {A} (r : result A) : C A :=
  match r with
  | Ok a => unit_C a
  | Raise e => raise (Exception e)
  end.

(** [console.print(text, style=style)] *)
Definition console_print (text : string) (style : option string) : C unit :=
  λ w, (Returned tt, show (Printed text style) w).

(** [console.print(Panel(text, title=title, border_style=border_style))] *)
Definition console_print_panel (text title border_style : string) : C unit :=
  λ w, (Returned tt, show (PrintedPanel text title border_style) w).

(** [f"{a}"] for [a : str | None] *)
Definition format_optional (a : option string) : string :=
  match a with
  | Some s => s
  | None => "None"
  end.

(** [not a] for [a : str | None] *)
Definition falsy (a : option string) : bool :=
  match a with
  | Some s => negb (Str.truthy s)
  | None => true
  end.

Section Commands.

Variable user : User.

(** [Confirm.ask(prompt)] *)
Definition Confirm_ask (prompt : string) : C bool :=
  λ w,
    let reply := confirms user (screen w) prompt in
    (Returned reply, show (Confirmed prompt reply) w).

(** [Prompt.ask(prompt, default=default)] *)
Definition Prompt_ask (prompt default : string) : C string :=
  λ w,
    let reply := replies user (screen w) prompt default in
    (Returned reply, show (Prompted prompt default reply) w).

(** ** cli.py: the commands *)

(** [_gather_project_info] *)
Definition _gather_project_info (config : ProjectConfig) : C ProjectConfig :=
  let* config :=
    if falsy (author config) then
      let* reply := Prompt_ask "Author name" "Your Name" in
      unit_C {| name := name config; python_version := python_version config;
                description := description config; author := Some reply;
                email := email config |}
    else unit_C config in
  let* config :=
    if falsy (email config) then
      let* reply := Prompt_ask "Author email" "your.email@example.com" in
      unit_C {| name := name config; python_version := python_version config;
                description := description config; author := author config;
                email := Some reply |}
    else unit_C config in
  let* config :=
    if negb (Str.truthy (description config))
       || String.eqb (description config)
            ("A Python project called " +:+ name config) then
      let* reply :=
        Prompt_ask "Project description"
          ("A Python project called " +:+ name config) in
      unit_C {| name := name config; python_version := python_version config;
                description := reply; author := author config;
                email := email config |}
    else unit_C config in
  unit_C config.

(** [_show_project_summary] *)
Definition _show_project_summary (config : ProjectConfig) (project_path : Path)
    : C unit :=
  λ w,
    let summary :=
      Str.join [
        nl;
        "    [bold blue]Project Summary[/bold blue]"; nl;
        "    "; nl;
        "    Name: [cyan]"; name config; "[/cyan]"; nl;
        "    Path: [cyan]"; Path_str (Path_absolute project_path (files w)); "[/cyan]"; nl;
        "    Python: [cyan]"; python_version config; "[/cyan]"; nl;
        "    Description: [cyan]"; description config; "[/cyan]"; nl;
        "    Author: [cyan]"; format_optional (author config); "[/cyan]"; nl;
        "    Email: [cyan]"; format_optional (email config); "[/cyan]"; nl;
        "    "; nl;
        "    [bold green]Tools to be installed:[/bold green]"; nl;
        "    • uv (dependency management)"; nl;
        "    • pyright (static analysis)"; nl;
        "    • ruff (linting & formatting)"; nl;
        "    • beartype (runtime type checking)"; nl;
        "    • pytest (testing)"; nl;
        "    • pre-commit (git hooks)"; nl;
        "    • GitHub Actions (CI/CD)"; nl;
        "    "
      ] in
    console_print_panel summary "📋 Project Summary" "green" w.

(** [_show_success_message] *)
Definition _show_success_message (project_path : Path) (config : ProjectConfig)
    : C unit :=
  let next_steps :=
    Str.join [
      nl;
      "    [bold green]✅ Project created successfully![/bold green]"; nl;
      "    "; nl;
      "    [bold]Next steps:[/bold]"; nl;
      "    "; nl;
      "    1. Navigate to your project:"; nl;
      "       [cyan]cd "; Path_str project_path; "[/cyan]"; nl;
      "    "; nl;
      "    2. Initialize git repository:"; nl;
      "       [cyan]git init[/cyan]"; nl;
      "    "; nl;
      "    3. Install dependencies:"; nl;
      "       [cyan]uv sync[/cyan]"; nl;
      "    "; nl;
      "    4. Activate virtual environment:"; nl;
      "       [cyan]uv shell[/cyan]"; nl;
      "    "; nl;
      "    5. Run tests:"; nl;
      "       [cyan]pytest[/cyan]"; nl;
      "    "; nl;
      "    6. Start coding in [cyan]src/"; name config; "/[/cyan]"; nl;
      "    "; nl;
      "    [bold]Happy coding! 🚀[/bold]"; nl;
      "    "
    ] in
  console_print_panel next_steps "🎉 Success!" "green".

(** [create] *)
Definition create (project_name : string) (path : option Path)
    (python_version : string) (description author email : option string)
    (interactive : bool) : C unit :=
  try_except
    (let* path :=
       match path with
       | None => λ w, (Returned (Path_cwd (files w)), w)
       | Some path => unit_C path
       end in
     let project_path := path </> project_name in
     let* found := λ w, (Returned (Path_exists project_path (files w)), w) in
     let* _ :=
       if found then
         let* overwrite :=
           Confirm_ask
             ("Project '" +:+ project_name +:+ "' already exists. Overwrite?") in
         if negb overwrite then
           let* _ := console_print "Operation cancelled." (Some "yellow") in
           raise (Exit 1)
         else unit_C tt
       else unit_C tt in
     let* config :=
       of_result
         (new_ProjectConfig project_name python_version
            (Str.or_else description
               ("A Python project called " +:+ project_name))
            author email) in
     let* config :=
       if interactive then _gather_project_info config else unit_C config in
     let* _ := _show_project_summary config project_path in
     let* proceed := Confirm_ask "Proceed with project creation?" in
     let* _ :=
       if negb proceed then
         let* _ := console_print "Operation cancelled." (Some "yellow") in
         raise (Exit 1)
       else unit_C tt in
     let generator := new_ProjectGenerator config in
     let* _ := λ w, (Returned tt, show (TaskAdded "Creating project...") w) in
     let* _ := on_files (create_project generator project_path) in
     let* _ :=
       λ w, (Returned tt, show (TaskUpdated "Project created successfully!") w) in
     _show_success_message project_path config)
    (λ e,
       let* _ := λ w, (Returned tt, show (PrintedError e (Some "red")) w) in
       raise (Exit 1)).

End Commands.

(** [list_templates] *)
Definition list_templates : C unit :=
  let* _ := console_print "Available project templates:" (Some "bold blue") in
  let table :=
    {| show_header := true; header_style := "bold magenta";
       columns := []; rows := [] |} in
  let table :=
    {| show_header := show_header table; header_style := header_style table;
       columns := columns table ++ [("Template", Some "cyan")];
       rows := rows table |} in
  let table :=
    {| show_header := show_header table; header_style := header_style table;
       columns := columns table ++ [("Description", None)];
       rows := rows table |} in
  let table :=
    {| show_header := show_header table; header_style := header_style table;
       columns := columns table;
       rows := rows table
               ++ [["standard"; "Standard Python project with all tools"]] |} in
  let table :=
    {| show_header := show_header table; header_style := header_style table;
       columns := columns table;
       rows := rows table ++ [["minimal"; "Minimal setup with basic tooling"]] |} in
  let table :=
    {| show_header := show_header table; header_style := header_style table;
       columns := columns table;
       rows := rows table ++ [["web"; "Web application template"]] |} in
  λ w, (Returned tt, show (PrintedTable table) w).

(** [info] *)
Definition info : C unit :=
  let info_text :=
    Str.join [
      nl;
      "    [bold blue]PyBake CLI[/bold blue]"; nl;
      "    "; nl;
      "    Version: 0.1.0"; nl;
      "    "; nl;
      "    This tool creates new Python projects with:"; nl;
      "    • [green]uv[/green] for dependency management"; nl;
      "    • [green]pyright[/green] for static analysis"; nl;
      "    • [green]ruff[/green] for linting and formatting"; nl;
      "    • [green]beartype[/green] for runtime type checking"; nl;
      "    • [green]pytest[/green] for testing"; nl;
      "    • [green]pre-commit[/green] for git hooks"; nl;
      "    • [green]GitHub Actions[/green] for CI/CD"; nl;
      "    "; nl;
      "    Use [cyan]pybake create <name>[/cyan] to start a new project."; nl;
      "    "
    ] in
  console_print_panel info_text "ℹ️  Information" "blue".

(** * Notions used in the statements *)

(** ** Reading a name character by character *)

(** The name read character by character: separators are dropped, the
    character after one is upper-cased, the others lower-cased. *)
Fixpoint camel (delim : ascii → bool) (fresh : bool) (s : string) : string :=
  match s with
  | EmptyString => EmptyString
  | String c s' =>
      if delim c then camel delim true s'
      else String (if fresh then Str.to_upper c else Str.to_lower c)
             (camel delim false s')
  end.


Definition my_cool_app : ProjectConfig :=
  {| name := "My-Cool App"; python_version := "3.12";
     description := "A Python project called My-Cool App";
     author := None; email := None |}.

(** A name that starts with a digit. *)
Definition digit_config : ProjectConfig :=
  {| name := "3d-viewer"; python_version := "3.12";
     description := "A demo"; author := None; email := None |}.

(** Characters that [package_name] turns into identifier characters. *)
Definition name_char (c : ascii) : bool :=
  Str.isalpha c || Str.isdigit c || Ascii.eqb c "_" || dash_or_space c.

(** ** Well-formed trees and how a tree grows *)

(** The tree is closed under parents: the root directory and the working
    directory exist, and whatever exists lies in a directory. *)
Definition well_formed (fs : FileSystem) : Prop :=
  nodes fs !! [] = Some Dir
  ∧ nodes fs !! cwd fs = Some Dir
  ∧ ∀ loc c n, nodes fs !! (loc ++ [c]) = Some n → nodes fs !! loc = Some Dir.

Definition same_kind (n n' : node) : Prop :=
  match n, n' with
  | Dir, Dir => True
  | File _, File _ => True
  | _, _ => False
  end.

(** Nothing is removed and nothing changes its kind. *)
Definition grows (fs fs' : FileSystem) : Prop :=
  cwd fs' = cwd fs
  ∧ ∀ loc n, nodes fs !! loc = Some n →
      ∃ n', nodes fs' !! loc = Some n' ∧ same_kind n n'.

(** Only directories are added, at locations that held nothing. *)
Definition only_new_dirs (fs fs' : FileSystem) : Prop :=
  cwd fs' = cwd fs
  ∧ ∀ loc, nodes fs' !! loc = nodes fs !! loc
           ∨ (nodes fs !! loc = None ∧ nodes fs' !! loc = Some Dir).

Definition is_file (p : Path) (fs : FileSystem) : bool :=
  match read_text p fs with Ok _ => true | Raise _ => false end.

(** ** The materializer as a list of actions *)

Inductive action : Type :=
  | MkDir (p : Path)
  | WriteText (p : Path) (content : string).

Definition run (a : action) : M unit :=
  match a with
  | MkDir p => Path_mkdir p
  | WriteText p content => write_text p content
  end.

(** The directories [create_project] makes, in order. *)
Definition directories_made (self : ProjectGenerator) (project_path : Path)
    : list Path :=
  [ project_path;
    project_path </> "src";
    project_path </> ("src/" +:+ package_name (config self));
    project_path </> "tests";
    project_path </> ".github";
    project_path </> ".github/workflows" ].

(** The files [create_project] writes, in order, each with its content. *)
Definition files_written (self : ProjectGenerator) (project_path : Path)
    : list (Path * string) :=
  let pkg := package_name (config self) in
  [ (project_path </> "pyproject.toml", _get_pyproject_content self);
    (project_path </> ".python-version", python_version (config self));
    (project_path </> ".gitignore", _get_gitignore_content self);
    (project_path </> "README.md", _get_readme_content self);
    (project_path </> ".pre-commit-config.yaml", _get_precommit_content self);
    (project_path </> ".github" </> "workflows" </> "ci.yml",
      _get_github_actions_content self);
    (project_path </> "src" </> pkg </> "__init__.py", _get_init_content self);
    (project_path </> "src" </> pkg </> "main.py", _get_main_content self);
    (project_path </> "tests" </> "__init__.py", EmptyString);
    (project_path </> "tests" </> ("test_" +:+ pkg +:+ ".py"),
      _get_test_content self) ].

Definition plan (self : ProjectGenerator) (project_path : Path) : list action :=
  map MkDir (directories_made self project_path)
  ++ map (λ f, WriteText f.1 f.2) (files_written self project_path).

(** What a successful action leaves behind. *)
Definition settled (a : action) (fs : FileSystem) : Prop :=
  match a with
  | MkDir p => is_dir p fs = true
  | WriteText p _ => is_file p fs = true
  end.

(** Two actions on the same path, of the same kind. *)
Definition same_target (a a' : action) : Prop :=
  match a, a' with
  | MkDir p, MkDir p' => p = p'
  | WriteText p _, WriteText p' _ => p = p'
  | _, _ => False
  end.

(** ** The steps up to the version file *)

(** The last character of a string. *)
Fixpoint last_char (s : string) : option ascii :=
  match s with
  | EmptyString => None
  | String c s' =>
      match last_char s' with
      | None => Some c
      | Some x => Some x
      end
  end.

(** [create_project] up to the write of [.python-version]. *)
Definition up_to_python_version (self : ProjectGenerator) (project_path : Path)
    : M unit :=
  Path_mkdir project_path >>
  _create_directory_structure self project_path >>
  _generate_file project_path "pyproject.toml" (_get_pyproject_content self) >>
  _generate_file project_path ".python-version" (python_version (config self)).

(** ** Plain components *)

(** A single component that names an entry: not empty, neither dot nor
    double dot, without slash and without NUL. *)
Definition plain (c : string) : bool :=
  kept c && negb (String.eqb c "..")
  && Str.all (λ a, negb (Ascii.eqb a "/") && negb (Ascii.eqb a "000")) c.

(** ** Effects below the project directory *)

(** What an action adds, relative to the project directory. *)
Inductive effect : Type :=
  | NewDir (rel : list string)
  | NewFile (rel : list string) (content : string).

Definition rel_of (e : effect) : list string :=
  match e with NewDir rel => rel | NewFile rel _ => rel end.






(** The action [a] on a path below [root] has the effect [e]. *)
Definition realises (root : Path) (a : action) (e : effect) : Prop :=
  match a, e with
  | MkDir p, NewDir rel =>
      anchored p = anchored root ∧ parts p = parts root ++ rel
      ∧ has_nul p = false
  | WriteText p content, NewFile rel content' =>
      anchored p = anchored root ∧ parts p = parts root ++ rel
      ∧ has_nul p = false ∧ content = content'
  | _, _ => False
  end.

(** ** The generated directories and files *)

(** The directories made below the project directory, as components. *)
Definition generated_directories (self : ProjectGenerator)
    : list (list string) :=
  let pkg := package_name (config self) in
  [ ["src"]; ["src"; pkg]; ["tests"]; [".github"]; [".github"; "workflows"] ].

(** The ten generated files: components below the project directory, and
    content. *)
Definition generated_files (self : ProjectGenerator)
    : list (list string * string) :=
  let pkg := package_name (config self) in
  [ (["pyproject.toml"], _get_pyproject_content self);
    ([".python-version"], python_version (config self));
    ([".gitignore"], _get_gitignore_content self);
    (["README.md"], _get_readme_content self);
    ([".pre-commit-config.yaml"], _get_precommit_content self);
    ([".github"; "workflows"; "ci.yml"], _get_github_actions_content self);
    (["src"; pkg; "__init__.py"], _get_init_content self);
    (["src"; pkg; "main.py"], _get_main_content self);
    (["tests"; "__init__.py"], EmptyString);
    (["tests"; "test_" +:+ pkg +:+ ".py"], _get_test_content self) ].

Definition project_effects (self : ProjectGenerator) : list effect :=
  map NewDir (generated_directories self)
  ++ map (λ f, NewFile f.1 f.2) (generated_files self).


(** ** When the project can be generated *)





(** ** Sample generators and trees *)

Definition demo_generator : ProjectGenerator :=
  new_ProjectGenerator
    {| name := "demo"; python_version := "3.12";
       description := "A Python project called demo";
       author := None; email := None |}.

(** A generator for a name with a slash. *)
Definition slash_generator : ProjectGenerator :=
  new_ProjectGenerator
    {| name := "a/b"; python_version := "3.12";
       description := "A Python project called a/b";
       author := None; email := None |}.

(** A tree with a project directory that holds a file of the user. *)
Definition used_fs : FileSystem :=
  {| cwd := [];
     nodes := <[ ["work"; "demo"; "NOTES.txt"] := File "keep" ]>
                (<[ ["work"; "demo"] := Dir ]>
                   (<[ ["work"] := Dir ]> {[ [] := Dir ]})) |}.

Definition is_dir_at (t : gmap (list string) node) (loc : list string) : bool :=
  match t !! loc with Some Dir => true | _ => false end.

(** [well_formed], checked over the nodes of the tree. *)
Definition well_formed_b (fs : FileSystem) : bool :=
  is_dir_at (nodes fs) [] && is_dir_at (nodes fs) (cwd fs)
  && forallb
       (λ kn, match fst kn with
              | [] => true
              | _ => is_dir_at (nodes fs) (removelast (fst kn))
              end)
       (map_to_list (nodes fs)).

(** A generator with another description and an author, for the same
    package. *)
Definition demo_generator_again : ProjectGenerator :=
  new_ProjectGenerator
    {| name := "demo"; python_version := "3.13";
       description := "The demo, generated again";
       author := Some "Ada"; email := None |}.

(** ** The renderers as a table *)



(** ** The writes of a list of actions *)

(** The places the write actions of [l] lead to in [fs], each with the
    file written there, in the order of the actions. *)
Fixpoint writes (l : list action) (fs : FileSystem)
    : list (list string * node) :=
  match l with
  | [] => []
  | MkDir _ :: l' => writes l' fs
  | WriteText p content :: l' =>
      match resolve fs p with
      | Ok loc => (loc, File content) :: writes l' fs
      | Raise _ => writes l' fs
      end
  end.

(** The tree [t] after the insertions [ws], the first one first. *)
Definition overwrite (ws : list (list string * node))
    (t : gmap (list string) node) : gmap (list string) node :=
  foldl (λ t w, <[w.1 := w.2]> t) t ws.

(** What the last insertion of [ws] at [k] puts there. *)
Fixpoint final (ws : list (list string * node)) (k : list string)
    : option node :=
  match ws with
  | [] => None
  | w :: ws' =>
      match final ws' k with
      | Some n => Some n
      | None => if decide (w.1 = k) then Some w.2 else None
      end
  end.

(** ** The questions of the command line *)

(** A question of [Prompt.ask]. *)
Definition is_prompt (s : shown) : Prop :=
  match s with
  | Prompted _ _ _ => True
  | _ => False
  end.

(** Whether [_gather_project_info] asks for the description: when there
    is none, and when it is the one [create] gives by default. *)
Definition description_missing (config : ProjectConfig) : bool :=
  negb (Str.truthy (description config))
  || String.eqb (description config)
       ("A Python project called " +:+ name config).

(** The questions [_gather_project_info] asks for [config], each with its
    default, in the order in which it asks them. *)
Definition missing (config : ProjectConfig) : list (string * string) :=
  (if falsy (author config) then [("Author name", "Your Name")] else [])
  ++ (if falsy (email config)
      then [("Author email", "your.email@example.com")] else [])
  ++ (if description_missing config
      then [("Project description",
             "A Python project called " +:+ name config)]
      else []).

(** The entry of the terminal is the question [q] with some reply. *)
Definition asks (s : shown) (q : string * string) : Prop :=
  ∃ reply, s = Prompted q.1 q.2 reply.

(** The three questions of [_gather_project_info] for the project
    [project_name]. *)
Definition gather_questions (project_name : string) : list (string * string) :=
  [ ("Author name", "Your Name");
    ("Author email", "your.email@example.com");
    ("Project description", "A Python project called " +:+ project_name) ].

(** The path of the project: [path / project_name], from the working
    directory when no path is given. *)
Definition project_path_of (path : option Path) (project_name : string)
    (fs : FileSystem) : Path :=
  match path with
  | None => Path_cwd fs
  | Some path => path
  end </> project_name.

Definition overwrite_question (project_name : string) : string :=
  "Project '" +:+ project_name +:+ "' already exists. Overwrite?".

Definition proceed_question : string := "Proceed with project creation?".

(** What the terminal shows when the user declines [prompt]. *)
Definition cancelled (prompt : string) : list shown :=
  [ Confirmed prompt false;
    Printed "Operation cancelled." (Some "yellow");
    PrintedError (Exit 1) (Some "red") ].

(** The configuration [create] builds from its arguments. *)
Definition config_of_arguments (project_name python_version : string)
    (description author email : option string) : result ProjectConfig :=
  new_ProjectConfig project_name python_version
    (Str.or_else description ("A Python project called " +:+ project_name))
    author email.

(** ** More samples: a name in camel case, a user, a world *)


(** A user who keeps every default and agrees to everything. *)
Definition agreeable : User :=
  {| confirms := λ _ _, true; replies := λ _ _ default, default |}.

(** A configuration with everything given. *)
Definition full_config : ProjectConfig :=
  {| name := "demo"; python_version := "3.12"; description := "The demo";
     author := Some "Ada"; email := Some "ada@example.com" |}.

Definition world_of (fs : FileSystem) : World :=
  {| files := fs; screen := [] |}.

(** * Properties *)

(** * Properties of the string primitives *)

(** Case analysis over the 256 characters. *)
Ltac by_cases_on_char c :=
  destruct c as [[] [] [] [] [] [] [] []]; vm_compute;
  try reflexivity; try discriminate; auto.



(** [String.append] is not unfolded by [simpl]: its equations. *)
Lemma append_nil_l s : EmptyString +:+ s = s.
Proof. reflexivity. Qed.

Lemma append_cons c s t : String c s +:+ t = String c (s +:+ t).
Proof. reflexivity. Qed.

Lemma append_nil_r s : s +:+ EmptyString = s.
Proof.
  induction s as [|c s IH]; [reflexivity |].
  by rewrite append_cons, IH.
Qed.

Lemma append_assoc s1 s2 s3 : (s1 +:+ s2) +:+ s3 = s1 +:+ s2 +:+ s3.
Proof.
  induction s1 as [|c s1 IH]; [reflexivity |].
  by rewrite !append_cons, IH.
Qed.

Ltac simpl_str := repeat (rewrite ?append_cons, ?append_nil_l; simpl).

Lemma all_append p s1 s2 :
  Str.all p (s1 +:+ s2) = Str.all p s1 && Str.all p s2.
Proof.
  induction s1 as [|c s1 IH]; [reflexivity |].
  rewrite append_cons. simpl. by rewrite IH, andb_assoc.
Qed.


(** The two replacements of [package_name] are one pass over the name. *)
Lemma replace_twice_one_pass s :
  Str.replace " " "_" (Str.replace "-" "_" s) =
  Str.map_chars
    (λ c, if Ascii.eqb c "-" || Ascii.eqb c " " then "_"%char else c) s.
Proof.
  induction s as [|c s IH]; simpl; [reflexivity |].
  destruct (Ascii.eqb_spec c "-") as [->|Hd]; simpl_str.
  - by rewrite IH.
  - destruct (Ascii.eqb_spec c " ") as [->|Hs]; simpl_str; by rewrite IH.
Qed.


(** ** [class_name]: the word-by-word reading and the scanning loop agree *)

Lemma split_on_cons delim s : ∃ w ws, Str.split_on delim s = w :: ws.
Proof.
  destruct s as [|c s]; simpl; [by eauto |].
  destruct (delim c); [by eauto |].
  destruct (Str.split_on delim s); by eauto.
Qed.

Lemma join_split_on_camel delim s w ws :
  Str.split_on delim s = w :: ws →
  Str.capitalize w +:+ Str.join (map Str.capitalize ws) = camel delim true s
  ∧ Str.lower w +:+ Str.join (map Str.capitalize ws) = camel delim false s.
Proof.
  revert w ws. induction s as [|c s IH]; intros w ws; simpl.
  - intros [= <- <-]. by split.
  - destruct (delim c).
    + intros [= <- <-]. simpl_str.
      destruct (split_on_cons delim s) as (w' & ws' & Hs).
      rewrite Hs. simpl_str. destruct (IH _ _ Hs) as [-> _]. by split.
    + destruct (split_on_cons delim s) as (w' & ws' & Hs).
      rewrite Hs. intros [= <- <-]. simpl_str.
      destruct (IH _ _ Hs) as [_ ->]. by split.
Qed.

Lemma class_name_split_at_camel delim s :
  class_name_split_at delim s = camel delim true s.
Proof.
  unfold class_name_split_at.
  destruct (split_on_cons delim s) as (w & ws & Hs).
  rewrite Hs. simpl. by destruct (join_split_on_camel delim s w ws Hs) as [-> _].
Qed.

Lemma lower_append s1 s2 :
  Str.lower (s1 +:+ s2) = Str.lower s1 +:+ Str.lower s2.
Proof.
  induction s1 as [|c s1 IH]; [reflexivity |].
  rewrite append_cons. simpl. by rewrite IH.
Qed.

Lemma replace_dash_head c s :
  ∃ c', Str.replace "-" " " (String c s) = String c' (Str.replace "-" " " s)
        ∧ Str.isspace c' = dash_or_whitespace c
        ∧ (dash_or_whitespace c = false → c' = c).
Proof.
  unfold dash_or_whitespace. simpl.
  destruct (Ascii.eqb_spec c "-") as [->|Hd].
  - exists " "%char. by repeat split.
  - exists c. by repeat split.
Qed.

Lemma split_go_camel s : ∀ cur,
  Str.join (map Str.capitalize (Str.split_go cur (Str.replace "-" " " s))) =
  match cur with
  | None => camel dash_or_whitespace true s
  | Some w =>
      if Str.truthy w then Str.capitalize w +:+ camel dash_or_whitespace false s
      else camel dash_or_whitespace true s
  end.
Proof.
  induction s as [|c s IH]; intros cur.
  - destruct cur as [w|]; simpl; [| reflexivity].
    rewrite !append_nil_r. by destruct w.
  - destruct (replace_dash_head c s) as (c' & -> & Hsp & Hc').
    simpl. rewrite Hsp.
    destruct (dash_or_whitespace c) eqn:Hdw.
    + destruct cur as [w|]; simpl; rewrite IH; [| reflexivity].
      by destruct w.
    + rewrite (Hc' eq_refl), IH.
      destruct cur as [w|]; simpl_str; [| reflexivity].
      destruct w as [|a w]; simpl_str; [reflexivity |].
      by rewrite lower_append, append_assoc.
Qed.

(** * Configuration (config.py) *)

Lemma truthy_true s : Str.truthy s = true ↔ s ≠ EmptyString.
Proof. destruct s; split; intros H; done. Qed.

Lemma construction_succeeds (n pv d : string) (a e : option string) :
  n ≠ EmptyString → pv ≠ EmptyString → d ≠ EmptyString →
  new_ProjectConfig n pv d a e =
  Ok {| name := n; python_version := pv; description := d;
        author := a; email := e |}.
Proof.
  intros Hn Hpv Hd. unfold new_ProjectConfig, __post_init__. simpl.
  apply truthy_true in Hn, Hpv, Hd. by rewrite Hn, Hpv, Hd.
Qed.

(** C2: construction with an empty name, Python version or description
    raises a [ValueError] (the specification's ValidationError); with all
    three non-empty it returns the configuration holding the arguments. *)
Theorem construction_validates (n pv d : string) (a e : option string) :
  (n = EmptyString ∨ pv = EmptyString ∨ d = EmptyString →
   ∃ msg, new_ProjectConfig n pv d a e = Raise (ValueError msg))
  ∧ (n ≠ EmptyString → pv ≠ EmptyString → d ≠ EmptyString →
     new_ProjectConfig n pv d a e =
     Ok {| name := n; python_version := pv; description := d;
           author := a; email := e |}).
Proof.
  unfold new_ProjectConfig, __post_init__. simpl. split.
  - intros H.
    destruct n as [|c0 n]; simpl; [by eauto |].
    destruct pv as [|c1 pv]; simpl; [by eauto |].
    destruct d as [|c2 d]; simpl; [by eauto |].
    by destruct H as [H | [H | H]].
  - apply construction_succeeds.
Qed.

Lemma construction_validates_witness :
  (∃ msg, new_ProjectConfig EmptyString "3.12" "A demo" None None
          = Raise (ValueError msg))
  ∧ new_ProjectConfig "demo" "3.12" "A demo" None None =
    Ok {| name := "demo"; python_version := "3.12"; description := "A demo";
          author := None; email := None |}.
Proof.
  split.
  - apply (proj1 (construction_validates EmptyString "3.12" "A demo" None None)).
    by left.
  - by apply (proj2 (construction_validates "demo" "3.12" "A demo" None None)).
Defined.

(** ** The derived names *)

Lemma package_name_one_pass c :
  package_name c = package_name_as_specified (name c).
Proof.
  unfold package_name, package_name_as_specified.
  by rewrite replace_twice_one_pass.
Qed.

Lemma class_name_camel c :
  class_name c = camel dash_or_whitespace true (name c).
Proof. unfold class_name, Str.split. by rewrite split_go_camel. Qed.




(** Where the name has no whitespace but the space, the two readings of
    [class_name] agree. *)
Lemma class_name_split_at_agree s :
  Str.all (λ ch, Bool.eqb (dash_or_whitespace ch) (dash_or_space ch)) s = true →
  class_name_split_at dash_or_whitespace s = class_name_split_at dash_or_space s.
Proof.
  rewrite !class_name_split_at_camel. intros Hall.
  assert (∀ fresh, camel dash_or_whitespace fresh s = camel dash_or_space fresh s)
    as Hcamel; [| apply Hcamel].
  induction s as [|ch s IH]; intros fresh; simpl; [reflexivity |].
  simpl in Hall. apply andb_true_iff in Hall as [Hc Hs].
  apply Bool.eqb_prop in Hc. rewrite Hc.
  by rewrite !IH.
Qed.

(** C7: the valid configuration named 3d-viewer has the package name
    3d_viewer, which is no identifier. *)
Example package_name_not_identifier :
  valid digit_config
  ∧ package_name digit_config = "3d_viewer"
  ∧ Str.is_identifier (package_name digit_config) = false.
Proof. by repeat split. Qed.

Lemma package_name_char c :
  name_char c = true →
  let c' :=
    Str.to_lower
      (if Ascii.eqb c "-" || Ascii.eqb c " " then "_"%char else c) in
  Str.isalpha c' || Str.isdigit c' || Ascii.eqb c' "_" = true.
Proof. by_cases_on_char c. Qed.

Lemma package_name_first_char c :
  name_char c = true → Str.isdigit c = false →
  let c' :=
    Str.to_lower
      (if Ascii.eqb c "-" || Ascii.eqb c " " then "_"%char else c) in
  Str.isalpha c' || Ascii.eqb c' "_" = true.
Proof. by_cases_on_char c. Qed.

(** X1: where [package_name] is an identifier: the name is made of
    letters, digits, underscores, dashes and spaces, and does not start
    with a digit. *)
Lemma package_name_identifier c a s :
  name c = String a s →
  Str.isdigit a = false → Str.all name_char (String a s) = true →
  Str.is_identifier (package_name c) = true.
Proof.
  intros Hname Hdigit [Ha Hs]%andb_true_iff.
  rewrite package_name_one_pass, Hname. unfold package_name_as_specified.
  simpl. rewrite (package_name_first_char a Ha Hdigit). simpl.
  clear Hname Ha Hdigit. induction s as [|b s IH]; [reflexivity |].
  simpl in *. apply andb_true_iff in Hs as [Hb Hs].
  by rewrite (package_name_char b Hb), IH.
Qed.

Lemma package_name_identifier_witness :
  Str.is_identifier (package_name my_cool_app) = true.
Proof.
  by apply (package_name_identifier my_cool_app "M" "y-Cool App").
Defined.

Lemma camel_spaces n fresh :
  camel dash_or_whitespace fresh (Str.repeat " " n) = EmptyString.
Proof. revert fresh. induction n as [|n IH]; intros fresh; simpl; [reflexivity | apply IH]. Qed.

Lemma package_name_as_specified_spaces n :
  package_name_as_specified (Str.repeat " " n) = Str.repeat "_" n.
Proof.
  unfold package_name_as_specified.
  induction n as [|n IH]; simpl; [reflexivity |].
  simpl in IH. by rewrite IH.
Qed.

(** C9: only the empty string is rejected. A name of one or more spaces is
    accepted; its class name is empty and its package name is as many
    underscores. *)
Theorem blank_name_accepted (n : nat) (pv d : string) (a e : option string) :
  pv ≠ EmptyString → d ≠ EmptyString →
  ∃ c, new_ProjectConfig (Str.repeat " " (S n)) pv d a e = Ok c
       ∧ name c = Str.repeat " " (S n)
       ∧ class_name c = EmptyString
       ∧ package_name c = Str.repeat "_" (S n).
Proof.
  intros Hpv Hd. eexists. split; [| split; [| split]].
  - by apply construction_succeeds.
  - reflexivity.
  - rewrite class_name_camel. apply camel_spaces.
  - rewrite package_name_one_pass. apply package_name_as_specified_spaces.
Qed.

Lemma blank_name_accepted_witness :
  ∃ c, new_ProjectConfig " " "3.12" "A demo" None None = Ok c
       ∧ name c = " "
       ∧ class_name c = EmptyString
       ∧ package_name c = "_".
Proof. by apply (blank_name_accepted 0 "3.12" "A demo" None None). Defined.

(** * The file system *)

Lemma same_kind_refl n : same_kind n n.
Proof. by destruct n. Qed.

Lemma same_kind_trans n1 n2 n3 :
  same_kind n1 n2 → same_kind n2 n3 → same_kind n1 n3.
Proof. by destruct n1, n2, n3. Qed.

Lemma grows_refl fs : grows fs fs.
Proof. split; [done |]. intros loc n H. exists n. split; [done | apply same_kind_refl]. Qed.

Lemma grows_trans fs1 fs2 fs3 : grows fs1 fs2 → grows fs2 fs3 → grows fs1 fs3.
Proof.
  intros [Hc1 H1] [Hc2 H2]. split; [congruence |].
  intros loc n Hn. destruct (H1 _ _ Hn) as (n2 & Hn2 & Hk2).
  destruct (H2 _ _ Hn2) as (n3 & Hn3 & Hk3).
  exists n3. split; [done | by eapply same_kind_trans].
Qed.

Lemma only_new_dirs_refl fs : only_new_dirs fs fs.
Proof. split; [done |]. intros loc. by left. Qed.

Lemma only_new_dirs_trans fs1 fs2 fs3 :
  only_new_dirs fs1 fs2 → only_new_dirs fs2 fs3 → only_new_dirs fs1 fs3.
Proof.
  intros [Hc1 H1] [Hc2 H2]. split; [congruence |].
  intros loc. destruct (H1 loc) as [E1 | [N1 D1]], (H2 loc) as [E2 | [N2 D2]].
  - left. congruence.
  - right. split; congruence.
  - right. split; congruence.
  - congruence.
Qed.

Lemma only_new_dirs_grows fs fs' : only_new_dirs fs fs' → grows fs fs'.
Proof.
  intros [Hc H]. split; [done |]. intros loc n Hn.
  destruct (H loc) as [E | [N _]]; [| congruence].
  exists n. split; [congruence | apply same_kind_refl].
Qed.

Lemma only_new_dirs_insert fs loc :
  nodes fs !! loc = None →
  only_new_dirs fs (set_nodes (<[loc := Dir]> (nodes fs)) fs).
Proof.
  intros Hloc. split; [done |]. intros k. simpl.
  destruct (decide (loc = k)) as [<- | Hne].
  - right. by rewrite lookup_insert_eq.
  - left. by rewrite lookup_insert_ne.
Qed.

Lemma grows_write fs loc content :
  nodes fs !! loc ≠ Some Dir →
  grows fs (set_nodes (<[loc := File content]> (nodes fs)) fs).
Proof.
  intros Hloc. split; [done |]. intros k n Hk. simpl.
  destruct (decide (loc = k)) as [<- | Hne].
  - rewrite lookup_insert_eq. exists (File content). split; [done |].
    destruct n; [done | exact I].
  - rewrite lookup_insert_ne by done. exists n. split; [done | apply same_kind_refl].
Qed.

(** ** Path resolution *)

Lemma walk_app t s ps qs loc :
  walk t s ps = Ok loc → walk t s (ps ++ qs) = walk t loc qs.
Proof.
  revert s. induction ps as [|c ps IH]; intros s; simpl.
  - by intros [= ->].
  - destruct (t !! s) as [[|x]|]; [| done | done]. apply IH.
Qed.

Lemma walk_grows fs fs' s ps loc :
  grows fs fs' →
  walk (nodes fs) s ps = Ok loc → walk (nodes fs') s ps = Ok loc.
Proof.
  intros [_ Hg]. revert s. induction ps as [|c ps IH]; intros s; simpl; [done |].
  destruct (nodes fs !! s) as [[|x]|] eqn:Hs; [| done | done].
  destruct (Hg _ _ Hs) as (n' & -> & Hk). destruct n'; [| done]. apply IH.
Qed.

Lemma start_grows fs fs' p : grows fs fs' → start fs' p = start fs p.
Proof. intros [Hc _]. unfold start. by rewrite Hc. Qed.

Lemma resolve_grows fs fs' p loc :
  grows fs fs' → resolve fs p = Ok loc → resolve fs' p = Ok loc.
Proof.
  intros Hg. unfold resolve. rewrite (start_grows _ _ _ Hg).
  by apply walk_grows.
Qed.

(** The last step of a resolution is taken from a directory. *)
Lemma walk_snoc t s ps c loc :
  walk t s (ps ++ [c]) = Ok loc →
  ∃ cur, walk t s ps = Ok cur ∧ t !! cur = Some Dir ∧ loc = step cur c.
Proof.
  revert s. induction ps as [|a ps IH]; intros s; simpl.
  - destruct (t !! s) as [[|x]|] eqn:Hs; [| done | done].
    intros [= <-]. by exists s.
  - destruct (t !! s) as [[|x]|]; [| done | done]. apply IH.
Qed.

(** ** What a path is *)

Lemma is_dir_spec p fs :
  is_dir p fs = true ↔
  has_nul p = false ∧ ∃ loc, resolve fs p = Ok loc ∧ nodes fs !! loc = Some Dir.
Proof.
  unfold is_dir. split.
  - destruct (has_nul p); [done |].
    destruct (resolve fs p) as [loc|e]; [| done].
    destruct (nodes fs !! loc) as [[|x]|] eqn:Hl; [| done | done].
    intros _. split; [done |]. by exists loc.
  - intros (-> & loc & -> & ->). done.
Qed.

Lemma read_text_spec p fs content :
  read_text p fs = Ok content ↔
  has_nul p = false
  ∧ ∃ loc, resolve fs p = Ok loc ∧ nodes fs !! loc = Some (File content).
Proof.
  unfold read_text. split.
  - destruct (has_nul p); [done |].
    destruct (resolve fs p) as [loc|e]; [| done].
    destruct (nodes fs !! loc) as [[|x]|] eqn:Hl; [done | | done].
    intros [= ->]. split; [done |]. by exists loc.
  - intros (-> & loc & -> & ->). done.
Qed.

Lemma is_dir_grows fs fs' p :
  grows fs fs' → is_dir p fs = true → is_dir p fs' = true.
Proof.
  intros Hg. rewrite !is_dir_spec. intros (Hn & loc & Hr & Hl).
  split; [done |]. exists loc. split; [by eapply resolve_grows |].
  destruct Hg as [_ Hg]. destruct (Hg _ _ Hl) as (n' & -> & Hk). by destruct n'.
Qed.

(** ** The commands *)

Lemma os_mkdir_spec p fs r fs' :
  os_mkdir p fs = (r, fs') →
  (r = Ok tt ∧ has_nul p = false
   ∧ ∃ loc, resolve fs p = Ok loc ∧ nodes fs !! loc = None
            ∧ fs' = set_nodes (<[loc := Dir]> (nodes fs)) fs)
  ∨ (∃ e, r = Raise e ∧ fs' = fs).
Proof.
  unfold os_mkdir.
  destruct (has_nul p); [intros [= <- <-]; right; by eexists |].
  destruct (resolve fs p) as [loc|e]; [| intros [= <- <-]; right; by eexists].
  destruct (nodes fs !! loc) eqn:Hl; intros [= <- <-].
  - right. by eexists.
  - left. do 2 (split; [done |]). by exists loc.
Qed.

Lemma os_mkdir_post p fs r fs' :
  os_mkdir p fs = (r, fs') →
  only_new_dirs fs fs' ∧ (r = Ok tt → is_dir p fs' = true).
Proof.
  intros H. destruct (os_mkdir_spec _ _ _ _ H)
    as [(-> & Hn & loc & Hr & Hl & ->) | (e & -> & ->)].
  - split; [by apply only_new_dirs_insert |]. intros _.
    apply is_dir_spec. split; [done |]. exists loc. split.
    + eapply resolve_grows; [| done].
      by apply only_new_dirs_grows, only_new_dirs_insert.
    + simpl. by rewrite lookup_insert_eq.
  - split; [apply only_new_dirs_refl | done].
Qed.

Lemma unless_is_dir_post p e fs r fs' :
  unless_is_dir p e fs = (r, fs') →
  fs' = fs ∧ (r = Ok tt → is_dir p fs = true).
Proof.
  unfold unless_is_dir.
  destruct e; try (destruct (is_dir p fs) eqn:Hd); intros [= <- <-]; by split.
Qed.

Lemma mkdir_exist_ok_post p fs r fs' :
  mkdir_exist_ok p fs = (r, fs') →
  only_new_dirs fs fs' ∧ (r = Ok tt → is_dir p fs' = true).
Proof.
  unfold mkdir_exist_ok.
  destruct (os_mkdir p fs) as [r0 fs0] eqn:Hos.
  destruct (os_mkdir_post _ _ _ _ Hos) as [Hnew Hdir].
  destruct r0 as [[]|e].
  - intros [= <- <-]. by split.
  - destruct (os_mkdir_spec _ _ _ _ Hos) as [(? & _) | (e' & _ & ->)]; [done |].
    destruct e; try (intros [= <- <-]; by split);
      intros [-> Hr]%unless_is_dir_post; by split.
Qed.

Lemma mkdir_parents_unfold a rparts fs :
  mkdir_parents a rparts fs =
  let p := {| anchored := a; parts := rev rparts |} in
  match os_mkdir p fs with
  | (Ok _, fs') => (Ok tt, fs')
  | (Raise FileNotFoundError, fs') =>
      match rparts with
      | [] => (Raise FileNotFoundError, fs')
      | _ :: rparent => (mkdir_parents a rparent >> mkdir_exist_ok p) fs'
      end
  | (Raise e, fs') => unless_is_dir p e fs'
  end.
Proof. by destruct rparts. Qed.

(** The recursion of [mkdir_parents] is on [p.parent]. *)
Lemma parent_rev a c rparent :
  parent {| anchored := a; parts := rev (c :: rparent) |}
  = {| anchored := a; parts := rev rparent |}.
Proof. unfold parent. simpl. by rewrite removelast_last. Qed.

Lemma mkdir_parents_post a rparts : ∀ fs r fs',
  mkdir_parents a rparts fs = (r, fs') →
  only_new_dirs fs fs'
  ∧ (r = Ok tt → is_dir {| anchored := a; parts := rev rparts |} fs' = true).
Proof.
  induction rparts as [|c rparent IH]; intros fs r fs'; rewrite mkdir_parents_unfold;
    cbv zeta;
    destruct (os_mkdir _ fs) as [r0 fs0] eqn:Hos;
    destruct (os_mkdir_post _ _ _ _ Hos) as [Hnew Hdir];
    (destruct r0 as [[]|e]; [intros [= <- <-]; by split |]);
    (destruct (os_mkdir_spec _ _ _ _ Hos) as [(? & _) | (e' & _ & ->)]; [done |]).
  - destruct e; try (intros [= <- <-]; by split);
      intros [-> Hr]%unless_is_dir_post; by split.
  - destruct e; try (intros [-> Hr]%unless_is_dir_post; by split).
    unfold bind.
    destruct (mkdir_parents a rparent fs) as [r1 fs1] eqn:Hrec.
    destruct (IH _ _ _ Hrec) as [Hnew1 _].
    destruct r1 as [[]|e1]; [| intros [= <- <-]; by split].
    intros Hlast. destruct (mkdir_exist_ok_post _ _ _ _ Hlast) as [Hnew2 Hdir2].
    split; [by eapply only_new_dirs_trans | done].
Qed.

Lemma path_eta p : {| anchored := anchored p; parts := parts p |} = p.
Proof. by destruct p. Qed.

(** [mkdir] adds directories only, and where it returns the path is a
    directory. *)
Lemma Path_mkdir_post p fs r fs' :
  Path_mkdir p fs = (r, fs') →
  only_new_dirs fs fs' ∧ (r = Ok tt → is_dir p fs' = true).
Proof.
  unfold Path_mkdir. intros H. apply mkdir_parents_post in H.
  by rewrite rev_involutive, path_eta in H.
Qed.

(** [mkdir] of a directory that exists changes nothing. *)
Lemma Path_mkdir_existing p fs :
  is_dir p fs = true → Path_mkdir p fs = (Ok tt, fs).
Proof.
  intros Hd. unfold Path_mkdir. rewrite mkdir_parents_unfold. cbv zeta.
  rewrite rev_involutive, path_eta.
  pose proof Hd as (Hn & loc & Hr & Hl)%is_dir_spec.
  unfold os_mkdir. rewrite Hn, Hr, Hl. unfold unless_is_dir. by rewrite Hd.
Qed.

Lemma write_text_spec p content fs r fs' :
  write_text p content fs = (r, fs') →
  (r = Ok tt ∧ has_nul p = false
   ∧ ∃ loc, resolve fs p = Ok loc ∧ nodes fs !! loc ≠ Some Dir
            ∧ fs' = set_nodes (<[loc := File content]> (nodes fs)) fs)
  ∨ (∃ e, r = Raise e ∧ fs' = fs).
Proof.
  unfold write_text.
  destruct (has_nul p); [intros [= <- <-]; right; by eexists |].
  destruct (resolve fs p) as [loc|e]; [| intros [= <- <-]; right; by eexists].
  destruct (nodes fs !! loc) as [[|x]|] eqn:Hl; intros [= <- <-].
  - right. by eexists.
  - left. do 2 (split; [done |]). exists loc. by rewrite Hl.
  - left. do 2 (split; [done |]). exists loc. by rewrite Hl.
Qed.

Lemma write_text_ok p content fs loc :
  has_nul p = false → resolve fs p = Ok loc → nodes fs !! loc ≠ Some Dir →
  write_text p content fs
  = (Ok tt, set_nodes (<[loc := File content]> (nodes fs)) fs).
Proof.
  intros Hn Hr Hl. unfold write_text. rewrite Hn, Hr.
  by destruct (nodes fs !! loc) as [[|x]|].
Qed.

(** ** The materializer as a list of actions *)

Lemma bind_unit_ret (m : M unit) fs : (m >> ret tt) fs = m fs.
Proof. unfold bind, ret. by destruct (m fs) as [[[]|e] fs']. Qed.

Lemma ret_bind {B} (m : M B) fs : (ret tt >> m) fs = m fs.
Proof. reflexivity. Qed.

Lemma bind_assoc {A B C} (m : M A) (k : A → M B) (h : B → M C) fs :
  bind (bind m k) h fs = bind m (λ a, bind (k a) h) fs.
Proof. unfold bind. by destruct (m fs) as [[a|e] fs']. Qed.

Lemma bind_ext {A B} (m : M A) (k k' : A → M B) fs :
  (∀ a fs', k a fs' = k' a fs') → bind m k fs = bind m k' fs.
Proof. intros H. unfold bind. by destruct (m fs) as [[a|e] fs']. Qed.

Lemma for_each_app {A} (l1 l2 : list A) (body : A → M unit) fs :
  for_each (l1 ++ l2) body fs = (for_each l1 body >> for_each l2 body) fs.
Proof.
  revert fs. induction l1 as [|x l1 IH]; intros fs; simpl.
  - reflexivity.
  - rewrite bind_assoc. apply bind_ext. intros _ fs'. apply IH.
Qed.

Lemma create_project_plan self project_path fs :
  create_project self project_path fs
  = for_each (plan self project_path) run fs.
Proof.
  unfold create_project, plan, directories_made, files_written.
  cbn [map app fst snd for_each run].
  apply bind_ext; intros _ fs1.
  unfold _create_directory_structure. cbn [for_each].
  repeat (rewrite bind_assoc; apply bind_ext; intros _ ?fs).
  unfold _make_scripts_executable, _generate_project_files, _generate_file.
  rewrite ret_bind.
  repeat (rewrite bind_assoc; apply bind_ext; intros _ ?fs).
  reflexivity.
Qed.

(** ** Running a list of actions *)

Lemma is_file_spec p fs :
  is_file p fs = true ↔
  has_nul p = false
  ∧ ∃ loc x, resolve fs p = Ok loc ∧ nodes fs !! loc = Some (File x).
Proof.
  unfold is_file. destruct (read_text p fs) as [x|e] eqn:Hr.
  - apply read_text_spec in Hr as (Hn & loc & Hr & Hl). split; [| done].
    intros _. split; [done |]. by exists loc, x.
  - split; [done |]. intros (Hn & loc & x & Hres & Hl).
    assert (read_text p fs = Ok x) as Hx; [| congruence].
    apply read_text_spec. split; [done |]. by exists loc.
Qed.

Lemma is_file_grows fs fs' p :
  grows fs fs' → is_file p fs = true → is_file p fs' = true.
Proof.
  intros Hg. rewrite !is_file_spec. intros (Hn & loc & x & Hr & Hl).
  split; [done |]. destruct (Hg) as [_ Hk].
  destruct (Hk _ _ Hl) as (n' & Hl' & Hs). destruct n' as [|y]; [done |].
  exists loc, y. split; [by eapply resolve_grows | done].
Qed.

Lemma settled_grows a fs fs' : grows fs fs' → settled a fs → settled a fs'.
Proof.
  intros Hg. destruct a as [p | p c]; simpl.
  - by apply is_dir_grows.
  - by apply is_file_grows.
Qed.

Lemma run_grows a fs r fs' : run a fs = (r, fs') → grows fs fs'.
Proof.
  destruct a as [p | p c]; simpl.
  - intros [H _]%Path_mkdir_post. by apply only_new_dirs_grows.
  - intros [(_ & _ & loc & _ & Hl & ->) | (e & _ & ->)]%write_text_spec.
    + by apply grows_write.
    + apply grows_refl.
Qed.

Lemma for_each_cons {A} (x : A) l (body : A → M unit) fs r fs' :
  for_each (x :: l) body fs = (r, fs') →
  (∃ e, body x fs = (Raise e, fs') ∧ r = Raise e)
  ∨ (∃ fs1, body x fs = (Ok tt, fs1) ∧ for_each l body fs1 = (r, fs')).
Proof.
  simpl. unfold bind. destruct (body x fs) as [[[]|e] fs1].
  - intros H. right. by exists fs1.
  - intros [= <- <-]. left. by exists e.
Qed.

Lemma plan_grows l : ∀ fs r fs', for_each l run fs = (r, fs') → grows fs fs'.
Proof.
  induction l as [|a l IH]; intros fs r fs'.
  - intros [= <- <-]. apply grows_refl.
  - intros [(e & Ha & _) | (fs1 & Ha & Hl)]%for_each_cons.
    + by eapply run_grows.
    + eapply grows_trans; [by eapply run_grows | by eapply IH].
Qed.

Lemma run_settles a fs fs' : run a fs = (Ok tt, fs') → settled a fs'.
Proof.
  destruct a as [p | p c]; simpl.
  - intros [_ H]%Path_mkdir_post. by apply H.
  - intros H. pose proof (grows_fs := run_grows (WriteText p c) _ _ _ H).
    apply write_text_spec in H as [(_ & Hn & loc & Hr & Hl & ->) | (e & ? & _)];
      [| done].
    apply is_file_spec. split; [done |]. exists loc, c.
    split; [by eapply resolve_grows |]. simpl. by rewrite lookup_insert_eq.
Qed.

Lemma plan_settles l : ∀ fs fs',
  for_each l run fs = (Ok tt, fs') → Forall (λ a, settled a fs') l.
Proof.
  induction l as [|a l IH]; intros fs fs'; [by constructor |].
  intros [(e & _ & ?) | (fs1 & Ha & Hl)]%for_each_cons; [done |].
  constructor; [| by eapply IH].
  eapply settled_grows; [by eapply plan_grows | by eapply run_settles].
Qed.

Lemma run_settled a a' fs :
  same_target a a' → settled a fs → ∃ fs', run a' fs = (Ok tt, fs').
Proof.
  destruct a as [p | p c], a' as [p' | p' c']; simpl; try done; intros <-.
  - intros H. exists fs. by apply Path_mkdir_existing.
  - intros (Hn & loc & x & Hr & Hl)%is_file_spec.
    eexists. apply write_text_ok; [done | done | congruence].
Qed.

(** Actions that are settled run again without raising. *)
Lemma rerun l l' : ∀ fs,
  Forall2 same_target l l' → Forall (λ a, settled a fs) l →
  ∃ fs', for_each l' run fs = (Ok tt, fs').
Proof.
  intros fs Hsame. revert fs.
  induction Hsame as [|a a' l l' Ha Hl IH]; intros fs Hset.
  - by exists fs.
  - inversion Hset as [|? ? Hsa Hsl]; subst.
    destruct (run_settled a a' fs Ha Hsa) as (fs1 & Hrun).
    destruct (IH fs1) as (fs' & Hrest).
    { eapply Forall_impl; [exact Hsl |]. intros b Hb.
      eapply settled_grows; [by eapply run_grows | done]. }
    exists fs'. simpl. unfold bind. by rewrite Hrun.
Qed.

(** A file keeps its content unless an action writes to its location. *)
Lemma plan_frame l : ∀ fs r fs' loc x,
  for_each l run fs = (r, fs') →
  nodes fs !! loc = Some (File x) →
  (∀ p c, WriteText p c ∈ l → resolve fs' p ≠ Ok loc) →
  nodes fs' !! loc = Some (File x).
Proof.
  induction l as [|a l IH]; intros fs r fs' loc x.
  - by intros [= <- <-].
  - intros Hrun Hloc Hother.
    assert (∀ fs1, run a fs = (Ok tt, fs1) → grows fs1 fs' →
            nodes fs1 !! loc = Some (File x)) as Hstep.
    { intros fs1 Ha Hg. destruct a as [p | p c]; simpl in Ha.
      - apply Path_mkdir_post in Ha as [[_ Hnew] _].
        destruct (Hnew loc) as [-> | [? _]]; [done | congruence].
      - apply write_text_spec in Ha
          as [(_ & Hn & loc' & Hr & Hl & ->) | (e & ? & _)]; [| done].
        simpl. rewrite lookup_insert_ne; [done |]. intros ->.
        apply (Hother p c); [by left |].
        eapply resolve_grows; [exact Hg |].
        eapply resolve_grows; [| exact Hr]. by apply grows_write. }
    apply for_each_cons in Hrun as [(e & Ha & _) | (fs1 & Ha & Hl)].
    + destruct a as [p | p c]; simpl in Ha.
      * apply Path_mkdir_post in Ha as [[_ Hnew] _].
        destruct (Hnew loc) as [-> | [? _]]; [done | congruence].
      * apply write_text_spec in Ha as [(? & _) | (_ & _ & ->)]; done.
    + eapply IH; [exact Hl | | ].
      * apply Hstep; [done | by eapply plan_grows].
      * intros p c Hin. apply (Hother p c). by right.
Qed.

Lemma for_each_app_ok {A} (l1 l2 : list A) (body : A → M unit) fs fs1 :
  for_each l1 body fs = (Ok tt, fs1) →
  for_each (l1 ++ l2) body fs = for_each l2 body fs1.
Proof.
  intros H. rewrite for_each_app. unfold bind. by rewrite H.
Qed.

Lemma for_each_app_inv {A} (l1 l2 : list A) (body : A → M unit) fs fs' :
  for_each (l1 ++ l2) body fs = (Ok tt, fs') →
  ∃ fs1, for_each l1 body fs = (Ok tt, fs1)
         ∧ for_each l2 body fs1 = (Ok tt, fs').
Proof.
  rewrite for_each_app. unfold bind.
  destruct (for_each l1 body fs) as [[[]|e] fs1]; [| done].
  intros H. by exists fs1.
Qed.

(** The last write to a location decides its content, however the actions
    after it end. *)
Lemma last_write_wins l1 p content l2 fs fs1 r fs' :
  for_each (l1 ++ [WriteText p content]) run fs = (Ok tt, fs1) →
  for_each l2 run fs1 = (r, fs') →
  (∀ p' c' loc, WriteText p' c' ∈ l2 →
     resolve fs' p = Ok loc → resolve fs' p' ≠ Ok loc) →
  read_text p fs' = Ok content.
Proof.
  intros (fs0 & _ & Hw)%for_each_app_inv Hl Hother.
  apply for_each_cons in Hw as [(e & _ & ?) | (fs1' & Ha & [= <-])]; [done |].
  pose proof (plan_grows _ _ _ _ Hl) as Hg.
  pose proof (run_grows _ _ _ _ Ha) as Hg1.
  simpl in Ha. apply write_text_spec in Ha
    as [(_ & Hn & loc & Hr & Hloc & ->) | (e & ? & _)]; [| done].
  assert (resolve fs' p = Ok loc) as Hres.
  { eapply resolve_grows; [exact Hg |]. by eapply resolve_grows. }
  apply read_text_spec. split; [done |]. exists loc. split; [done |].
  eapply plan_frame; [exact Hl | simpl; by rewrite lookup_insert_eq |].
  intros p' c' Hin. by eapply Hother.
Qed.

(** A file that is there after the actions was there before, or one of
    the actions wrote it. *)
Lemma plan_only_writes l : ∀ fs r fs' loc x,
  for_each l run fs = (r, fs') →
  nodes fs' !! loc = Some (File x) →
  nodes fs !! loc = Some (File x)
  ∨ ∃ p, WriteText p x ∈ l ∧ resolve fs' p = Ok loc.
Proof.
  induction l as [|a l IH]; intros fs r fs' loc x.
  - intros [= <- <-]. by left.
  - intros Hrun Hloc.
    assert (∀ r1 fs1, run a fs = (r1, fs1) → grows fs1 fs' →
            nodes fs1 !! loc = Some (File x) →
            nodes fs !! loc = Some (File x)
            ∨ ∃ p, WriteText p x ∈ a :: l ∧ resolve fs' p = Ok loc) as Hstep.
    { intros r1 fs1 Ha Hg H1. destruct a as [p | p c]; simpl in Ha.
      - apply Path_mkdir_post in Ha as [[_ Hnew] _].
        destruct (Hnew loc) as [<- | [_ ?]]; [by left | congruence].
      - apply write_text_spec in Ha
          as [(_ & Hn & loc' & Hr & Hl & ->) | (e & _ & ->)]; [| by left].
        simpl in H1. destruct (decide (loc' = loc)) as [-> | Hne].
        + rewrite lookup_insert_eq in H1. injection H1 as ->.
          right. exists p. split; [by left |].
          eapply resolve_grows; [exact Hg |].
          eapply resolve_grows; [| exact Hr]. by apply grows_write.
        + rewrite lookup_insert_ne in H1 by done. by left. }
    apply for_each_cons in Hrun as [(e & Ha & _) | (fs1 & Ha & Hl)].
    + eapply Hstep; [exact Ha | apply grows_refl | done].
    + destruct (IH _ _ _ _ _ Hl Hloc) as [H1 | (p & Hin & Hres)].
      * eapply Hstep; [exact Ha | by eapply plan_grows | done].
      * right. exists p. split; [by right | done].
Qed.

(** ** Components of the generated paths *)

Lemma last_char_append s t :
  t ≠ EmptyString → last_char (s +:+ t) = last_char t.
Proof.
  intros Ht. induction s as [|c s IH]; [reflexivity |].
  rewrite append_cons. simpl. rewrite IH.
  destruct t as [|a t]; [done |]. simpl. by destruct (last_char t).
Qed.

Lemma split_on_plain delim s :
  Str.all (λ c, negb (delim c)) s = true → Str.split_on delim s = [s].
Proof.
  induction s as [|c s IH]; simpl; [done |].
  intros [Hc Hs]%andb_true_iff. apply negb_true_iff in Hc.
  by rewrite Hc, (IH Hs).
Qed.

(** Appending text without separators extends the last piece. *)
Lemma split_on_append delim s t :
  Str.all (λ c, negb (delim c)) t = true →
  ∃ ws w, Str.split_on delim s = ws ++ [w]
          ∧ Str.split_on delim (s +:+ t) = ws ++ [w +:+ t].
Proof.
  intros Ht. induction s as [|c s (ws & w & Hs & Hst)].
  - exists [], EmptyString. split; [done |]. by apply split_on_plain.
  - rewrite append_cons. simpl. rewrite Hs, Hst. destruct (delim c).
    + by exists (EmptyString :: ws), w.
    + destruct ws as [|a ws]; simpl.
      * by exists [], (String c w).
      * by exists (String c a :: ws), w.
Qed.

Lemma parts_join_literal p c :
  parse_path c = {| anchored := false; parts := [c] |} →
  parts (p </> c) = parts p ++ [c] ∧ anchored (p </> c) = anchored p.
Proof. unfold joinpath. by intros ->. Qed.

(** A file name that ends in [.py] is the last component of its path. *)
Lemma parts_join_py p stem :
  starts_with_slash stem = false →
  ∃ q w, parts (p </> (stem +:+ ".py")) = parts p ++ q ++ [w +:+ ".py"].
Proof.
  intros Hs. unfold joinpath, parse_path. cbn [anchored parts].
  assert (starts_with_slash (stem +:+ ".py") = false) as ->.
  { by destruct stem. }
  cbn [anchored parts]. unfold split_slash.
  destruct (split_on_append (λ c, Ascii.eqb c "/") stem ".py" eq_refl)
    as (ws & w & _ & ->).
  rewrite filter_app. exists (filter (λ c, Is_true (kept c)) ws), w.
  f_equal. f_equal. rewrite filter_cons_True; [done |].
  unfold kept.
  assert (∀ x, last_char x ≠ Some "y"%char → String.eqb (w +:+ ".py") x = false)
    as Hne.
  { intros x Hx. apply String.eqb_neq. intros <-.
    by rewrite last_char_append in Hx. }
  by rewrite !Hne.
Qed.

(** Where a path whose last component is no double dot resolves. *)
Lemma resolve_last fs p q c loc :
  parts p = q ++ [c] → c ≠ ".." → resolve fs p = Ok loc →
  ∃ cur, loc = cur ++ [c] ∧ nodes fs !! cur = Some Dir.
Proof.
  unfold resolve. intros -> Hc (cur & _ & Hd & ->)%walk_snoc.
  exists cur. split; [| done]. unfold step.
  by apply String.eqb_neq in Hc as ->.
Qed.

(** Two paths with different last components resolve to different
    locations. *)
Lemma resolve_apart fs p p' q q' c c' loc :
  parts p = q ++ [c] → parts p' = q' ++ [c'] →
  c ≠ ".." → c' ≠ ".." → c ≠ c' →
  resolve fs p = Ok loc → resolve fs p' ≠ Ok loc.
Proof.
  intros Hp Hp' Hc Hc' Hne Hr Hr'.
  destruct (resolve_last _ _ _ _ _ Hp Hc Hr) as (cur & -> & _).
  destruct (resolve_last _ _ _ _ _ Hp' Hc' Hr') as (cur' & Heq & _).
  by apply app_inj_tail in Heq as [_ ?].
Qed.

Lemma py_name_apart w x :
  last_char x ≠ Some "y"%char → x ≠ w +:+ ".py".
Proof. intros Hx ->. by rewrite last_char_append in Hx. Qed.

Lemma up_to_python_version_plan self project_path fs :
  up_to_python_version self project_path fs
  = for_each (take 8 (plan self project_path)) run fs.
Proof.
  unfold up_to_python_version, plan, directories_made, files_written.
  cbn [map app fst snd for_each run take].
  apply bind_ext; intros _ fs1.
  unfold _create_directory_structure. cbn [for_each].
  repeat (rewrite bind_assoc; apply bind_ext; intros _ ?fs).
  unfold _generate_file. rewrite ret_bind.
  apply bind_ext; intros _ ?fs. by rewrite bind_unit_ret.
Qed.

Lemma returned_wrote_python_version self project_path fs fs' :
  create_project self project_path fs = (Ok tt, fs') →
  is_ok (fst (up_to_python_version self project_path fs)) = true.
Proof.
  rewrite create_project_plan, up_to_python_version_plan.
  rewrite <- (take_drop 8 (plan self project_path)) at 1.
  by intros (fs1 & -> & _)%for_each_app_inv.
Qed.

(** C10: once [create_project] has written [.python-version], that is,
    when its steps up to that write have not raised, the file holds the
    configuration's Python version and nothing else when the call ends,
    whether it returns or raises later. *)
Theorem python_version_file (self : ProjectGenerator) (project_path : Path)
    (fs : FileSystem) :
  is_ok (fst (up_to_python_version self project_path fs)) = true →
  read_text (project_path </> ".python-version")
    (snd (create_project self project_path fs))
  = Ok (python_version (config self)).
Proof.
  rewrite create_project_plan, up_to_python_version_plan.
  destruct (for_each (take 8 (plan self project_path)) run fs)
    as [[[]|e] fs1] eqn:Hfirst; [intros _ | done].
  rewrite <- (take_drop 8 (plan self project_path)).
  rewrite (for_each_app_ok _ _ _ _ _ Hfirst).
  destruct (for_each (drop 8 (plan self project_path)) run fs1)
    as [r fs'] eqn:Hrest.
  unfold plan, directories_made, files_written in Hfirst, Hrest.
  cbn [map app fst snd take drop] in Hfirst, Hrest. simpl snd.
  eapply (last_write_wins
            [MkDir _; MkDir _; MkDir _; MkDir _; MkDir _; MkDir _; WriteText _ _]);
    [exact Hfirst | exact Hrest |].
  intros p' c' loc Hin Hres.
  destruct (parts_join_literal project_path ".python-version" eq_refl) as [Hp _].
  destruct (parts_join_py (project_path </> "tests")
              ("test_" +:+ package_name (config self)) eq_refl)
    as (q & w & Hpy).
  rewrite append_assoc in Hpy. rewrite (assoc_L (++)) in Hpy.
  repeat (apply elem_of_cons in Hin as [[= -> ->] | Hin]);
    [ .. | by apply elem_of_nil in Hin ];
    try (eapply resolve_apart;
         [exact Hp | by apply parts_join_literal | done | done | done | exact Hres]).
  eapply resolve_apart; [exact Hp | exact Hpy | done | | | exact Hres].
  - apply not_eq_sym, py_name_apart. done.
  - by apply py_name_apart.
Qed.

(** ** Plain components *)

Lemma plain_spec c :
  plain c = true →
  kept c = true ∧ c ≠ ".."
  ∧ Str.all (λ a, negb (Ascii.eqb a "/")) c = true
  ∧ Str.all (λ a, negb (Ascii.eqb a "000")) c = true.
Proof.
  unfold plain. intros [[Hk Hd%negb_true_iff%String.eqb_neq]%andb_true_iff Ha]%andb_true_iff.
  repeat split; [done | done | |].
  - clear Hk Hd. induction c as [|a c IH]; [done |]. simpl in *.
    apply andb_true_iff in Ha as [[-> _]%andb_true_iff Hc]. by rewrite IH.
  - clear Hk Hd. induction c as [|a c IH]; [done |]. simpl in *.
    apply andb_true_iff in Ha as [[_ ->]%andb_true_iff Hc]. by rewrite IH.
Qed.

Lemma parse_plain c :
  plain c = true → parse_path c = {| anchored := false; parts := [c] |}.
Proof.
  intros (Hk & _ & Hs & _)%plain_spec. unfold parse_path, split_slash.
  rewrite (split_on_plain _ _ Hs). f_equal.
  - destruct c as [|a c]; [done |]. simpl in *.
    apply andb_true_iff in Hs as [Ha _]. by apply negb_true_iff in Ha.
  - rewrite filter_cons_True; [done |]. by rewrite Hk.
Qed.

Lemma has_nul_plain a ps :
  Forall (λ c, plain c = true) ps →
  has_nul {| anchored := a; parts := ps |} = false.
Proof.
  unfold has_nul. simpl. induction 1 as [|c ps Hc _ IH]; [done |].
  simpl. rewrite IH. apply plain_spec in Hc as (_ & _ & _ & ->). done.
Qed.


Lemma plain_py_name stem :
  plain stem = true → plain ("test_" +:+ stem +:+ ".py") = true.
Proof.
  intros Hp. unfold plain in *.
  apply andb_true_iff in Hp as [_ Ha].
  apply andb_true_iff. split; [reflexivity |].
  change ("test_" +:+ stem +:+ ".py") with ("test_" +:+ (stem +:+ ".py")).
  by rewrite !all_append, Ha.
Qed.

Lemma plain_src_name pkg :
  plain pkg = true →
  parse_path ("src/" +:+ pkg) = {| anchored := false; parts := ["src"; pkg] |}.
Proof.
  intros (Hk & _ & Hs & _)%plain_spec. unfold parse_path, split_slash.
  f_equal. rewrite !append_cons, append_nil_l. simpl.
  rewrite (split_on_plain _ _ Hs).
  rewrite filter_cons_True by done.
  rewrite filter_cons_True by (by rewrite Hk). done.
Qed.

(** ** Well-formed trees *)


(** ** Resolution of plain components *)




(** ** Making a directory with plain components *)






(** ** Actions below an existing directory *)


Lemma resolve_below fs root r p rel :
  resolve fs root = Ok r →
  anchored p = anchored root → parts p = parts root ++ rel →
  resolve fs p = walk (nodes fs) r rel.
Proof.
  unfold resolve, start. intros Hr -> ->. by apply walk_app.
Qed.

Lemma set_nodes_id fs : set_nodes (nodes fs) fs = fs.
Proof. by destruct fs. Qed.



(** ** The effects of [create_project] below the project directory *)

Lemma joinpath_parse p s q :
  parse_path s = {| anchored := false; parts := q |} →
  p </> s = {| anchored := anchored p; parts := parts p ++ q |}.
Proof. unfold joinpath. by intros ->. Qed.

Lemma has_nul_app a ps qs :
  has_nul {| anchored := a; parts := ps |} = false →
  Forall (λ c, plain c = true) qs →
  has_nul {| anchored := a; parts := ps ++ qs |} = false.
Proof.
  unfold has_nul. simpl. intros Hps Hqs. rewrite existsb_app, Hps. simpl.
  by apply (has_nul_plain a qs).
Qed.

Lemma realises_dir root q :
  has_nul root = false → Forall (λ c, plain c = true) q →
  realises root (MkDir {| anchored := anchored root; parts := parts root ++ q |})
    (NewDir q).
Proof.
  intros Hn Hq. simpl. repeat split.
  apply has_nul_app; [by destruct root | done].
Qed.

Lemma realises_file root q content :
  has_nul root = false → Forall (λ c, plain c = true) q →
  realises root
    (WriteText {| anchored := anchored root; parts := parts root ++ q |} content)
    (NewFile q content).
Proof.
  intros Hn Hq. simpl. repeat split.
  apply has_nul_app; [by destruct root | done].
Qed.

Ltac plain_components :=
  repeat first [ apply Forall_nil_2 | apply Forall_cons_2 ];
  first [ reflexivity | assumption | by apply plain_py_name ].

Lemma plan_realises self root :
  plain (package_name (config self)) = true → has_nul root = false →
  Forall2 (realises root) (tail (plan self root)) (project_effects self).
Proof.
  intros Hpkg Hnul. unfold plan, directories_made, files_written,
    project_effects, generated_directories, generated_files.
  cbn [map app fst snd tail].
  pose proof (parse_plain _ Hpkg) as Hparse.
  pose proof (parse_plain _ (plain_py_name _ Hpkg)) as Hpy.
  pose proof (plain_src_name _ Hpkg) as Hsrc.
  rewrite !(joinpath_parse _ _ _ Hparse), !(joinpath_parse _ _ _ Hpy),
    !(joinpath_parse _ _ _ Hsrc).
  rewrite !(joinpath_parse _ "src" ["src"] eq_refl),
    !(joinpath_parse _ "tests" ["tests"] eq_refl),
    !(joinpath_parse _ ".github" [".github"] eq_refl),
    !(joinpath_parse _ "workflows" ["workflows"] eq_refl),
    !(joinpath_parse _ ".github/workflows" [".github"; "workflows"] eq_refl),
    !(joinpath_parse _ "pyproject.toml" ["pyproject.toml"] eq_refl),
    !(joinpath_parse _ ".python-version" [".python-version"] eq_refl),
    !(joinpath_parse _ ".gitignore" [".gitignore"] eq_refl),
    !(joinpath_parse _ "README.md" ["README.md"] eq_refl),
    !(joinpath_parse _ ".pre-commit-config.yaml" [".pre-commit-config.yaml"] eq_refl),
    !(joinpath_parse _ "ci.yml" ["ci.yml"] eq_refl),
    !(joinpath_parse _ "__init__.py" ["__init__.py"] eq_refl),
    !(joinpath_parse _ "main.py" ["main.py"] eq_refl).
  cbn [anchored parts]. rewrite <- !(assoc_L (++)). cbn [app].
  repeat first
    [ apply Forall2_nil_2
    | apply Forall2_cons_2;
      [ first [apply realises_dir | apply realises_file];
        [done | plain_components] | ] ].
Qed.




(** ** When [create_project] returns *)

Lemma forallb_true_Forall {A} (f : A → bool) (l : list A) :
  forallb f l = true → Forall (λ x, f x = true) l.
Proof.
  induction l as [|x l IH]; simpl; [by constructor |].
  intros [Hx Hl]%andb_true_iff. constructor; [done | by apply IH].
Qed.







Lemma project_effects_relative self :
  plain (package_name (config self)) = true →
  Forall (λ e, rel_of e ≠ [] ∧ Forall (λ c, c ≠ "..") (rel_of e))
    (project_effects self).
Proof.
  intros (_ & Hdots & _ & _)%plain_spec.
  pose proof (plain_py_name (package_name (config self))) as Hpy.
  unfold project_effects, generated_directories, generated_files.
  cbv zeta. cbn [map app fst snd].
  repeat (apply Forall_cons_2; [split; [done |]; simpl |]);
    [ .. | apply Forall_nil_2 ];
    repeat (apply Forall_cons_2; [first [done | by apply py_name_apart] |]);
    apply Forall_nil_2.
Qed.


Lemma for_each_cons_ok {A} (x : A) l (body : A → M unit) fs fs1 :
  body x fs = (Ok tt, fs1) →
  for_each (x :: l) body fs = for_each l body fs1.
Proof. intros H. simpl. unfold bind. by rewrite H. Qed.


(** ** Where the generated files are *)

Lemma walk_result t rel : ∀ r loc,
  Forall (λ c, c ≠ "..") rel → walk t r rel = Ok loc → loc = r ++ rel.
Proof.
  induction rel as [|c rel IH]; intros r loc Hdots; simpl.
  - intros [= <-]. by rewrite app_nil_r.
  - inversion Hdots as [|? ? Hc Hdots']; subst.
    destruct (t !! r) as [[|x]|]; [| done | done].
    unfold step. apply String.eqb_neq in Hc as ->.
    intros ->%IH; [| done]. by rewrite <- (assoc_L (++)).
Qed.

Lemma resolve_at fs root r a e loc :
  resolve fs root = Ok r → realises root a e →
  Forall (λ c, c ≠ "..") (rel_of e) →
  match a with
  | MkDir p => resolve fs p = Ok loc
  | WriteText p _ => resolve fs p = Ok loc
  end →
  loc = r ++ rel_of e.
Proof.
  intros Hroot Hreal Hdots.
  destruct a as [p | p c], e as [rel | rel c']; try done; simpl in *.
  - destruct Hreal as (Ha & Hp & _).
    rewrite (resolve_below _ _ _ _ _ Hroot Ha Hp). by apply walk_result.
  - destruct Hreal as (Ha & Hp & _).
    rewrite (resolve_below _ _ _ _ _ Hroot Ha Hp). by apply walk_result.
Qed.

(** Files written to different places hold what was written. *)
Lemma files_hold root r acts effs :
  Forall2 (realises root) acts effs → ∀ pre fs fs',
  for_each (pre ++ acts) run fs = (Ok tt, fs') →
  resolve fs' root = Ok r →
  Forall (λ e, Forall (λ c, c ≠ "..") (rel_of e)) effs →
  NoDup (map rel_of effs) →
  ∀ p c, WriteText p c ∈ acts → read_text p fs' = Ok c.
Proof.
  induction 1 as [|a e acts effs Hreal Hrest IH];
    intros pre fs fs' Hrun Hroot Hdots Hdup p c Hin.
  - by apply elem_of_nil in Hin.
  - inversion Hdots as [|? ? Hde Hdots']; subst.
    apply NoDup_cons in Hdup as [Hfresh Hdup].
    apply elem_of_cons in Hin as [<- | Hin].
    + change (WriteText p c :: acts) with ([WriteText p c] ++ acts) in Hrun.
      rewrite (assoc_L (++)) in Hrun.
      apply for_each_app_inv in Hrun as (fs1 & Hfirst & Hlast).
      eapply last_write_wins; [exact Hfirst | exact Hlast |].
      intros p' c' loc Hin' Hres Hres'.
      apply (resolve_at _ _ _ _ _ _ Hroot Hreal Hde) in Hres.
      apply list_elem_of_lookup in Hin' as (i & Hi).
      destruct (Forall2_lookup_l _ _ _ _ _ Hrest Hi) as (e' & He' & Hreal').
      assert (Forall (λ c, c ≠ "..") (rel_of e')) as Hde'.
      { rewrite Forall_forall in Hdots'. apply Hdots'.
        by eapply list_elem_of_lookup_2. }
      apply (resolve_at _ _ _ _ _ _ Hroot Hreal' Hde') in Hres'.
      apply Hfresh. rewrite Hres in Hres'. apply app_inv_head in Hres'.
      rewrite Hres'. apply list_elem_of_fmap_2.
      by eapply list_elem_of_lookup_2.
    + eapply (IH (pre ++ [a])); [| done | done | done | done].
      by rewrite <- (assoc_L (++)).
Qed.

Ltac distinct_places :=
  repeat first
    [ apply NoDup_nil_2
    | apply NoDup_cons_2;
      [ let H := fresh in
        intros H;
        repeat (apply elem_of_cons in H as [H | H]; [discriminate H |]);
        by apply elem_of_nil in H
      | ] ].

Lemma project_effects_distinct self :
  NoDup (map rel_of (project_effects self)).
Proof.
  unfold project_effects, generated_directories, generated_files.
  cbv zeta. cbn [map app fst snd rel_of].
  distinct_places.
Qed.


Lemma written_in_plan self root p c :
  (p, c) ∈ files_written self root → WriteText p c ∈ tail (plan self root).
Proof.
  intros Hin. unfold plan. change (tail (map MkDir (directories_made self root)
    ++ map (λ f, WriteText f.1 f.2) (files_written self root)))
    with (map MkDir (tail (directories_made self root))
    ++ map (λ f, WriteText f.1 f.2) (files_written self root)).
  apply elem_of_app. right.
  by apply (list_elem_of_fmap_2 (λ f, WriteText f.1 f.2) _ (p, c)).
Qed.

Lemma file_effect_generated self rel c :
  NewFile rel c ∈ project_effects self ↔ (rel, c) ∈ generated_files self.
Proof.
  unfold project_effects. rewrite elem_of_app. split.
  - intros [Hin | Hin].
    + apply list_elem_of_fmap in Hin as (d & [=] & _).
    + by apply list_elem_of_fmap in Hin as ([rel' c'] & [= -> ->] & Hin).
  - intros Hin. right.
    by apply (list_elem_of_fmap_2 (λ f, NewFile f.1 f.2) _ (rel, c)).
Qed.

Lemma relative_not_dotdot self :
  plain (package_name (config self)) = true →
  Forall (λ e, Forall (λ c, c ≠ "..") (rel_of e)) (project_effects self).
Proof.
  intros H%project_effects_relative. eapply Forall_impl; [exact H |].
  by intros e [_ ?].
Qed.

(** What holds once [create_project] has returned for a plain package
    name. *)
Lemma generated_after_return self root fs fs' :
  plain (package_name (config self)) = true →
  create_project self root fs = (Ok tt, fs') →
  ∃ r,
    resolve fs' root = Ok r
    ∧ (∀ p c, (p, c) ∈ files_written self root → read_text p fs' = Ok c)
    ∧ (∀ rel c, (rel, c) ∈ generated_files self →
         nodes fs' !! (r ++ rel) = Some (File c))
    ∧ (∀ loc x, nodes fs' !! loc = Some (File x) →
         nodes fs !! loc = Some (File x)
         ∨ ∃ rel, (rel, x) ∈ generated_files self ∧ loc = r ++ rel).
Proof.
  intros Hpkg Hrun. rewrite create_project_plan in Hrun.
  pose proof (plan_settles _ _ _ Hrun) as Hset.
  change (plan self root) with (MkDir root :: tail (plan self root)) in Hset, Hrun.
  apply Forall_cons in Hset as [(Hnul & r & Hres & Hr)%is_dir_spec _].
  pose proof (plan_realises self root Hpkg Hnul) as Hreal.
  pose proof (relative_not_dotdot self Hpkg) as Hdots.
  assert (∀ p c, WriteText p c ∈ tail (plan self root) →
                 read_text p fs' = Ok c) as Hhold.
  { eapply (files_hold root r _ _ Hreal [MkDir root]);
      [exact Hrun | done | done | apply project_effects_distinct]. }
  exists r. split; [done |]. split; [| split].
  - intros p c Hin. by apply Hhold, written_in_plan.
  - intros rel c Hin%file_effect_generated.
    apply list_elem_of_lookup in Hin as (i & Hi).
    destruct (Forall2_lookup_r _ _ _ _ _ Hreal Hi) as (a & Ha & Hra).
    destruct a as [p | p c']; [done |].
    pose proof Hra as (_ & _ & _ & ->).
    apply list_elem_of_lookup_2 in Ha.
    apply Hhold, read_text_spec in Ha as (_ & loc & Hloc & Hfile).
    rewrite Forall_forall in Hdots.
    assert (loc = r ++ rel) as <-; [| done].
    apply (resolve_at fs' root r (WriteText p c) (NewFile rel c)); try done.
    apply Hdots. by eapply list_elem_of_lookup_2.
  - intros loc x Hloc.
    destruct (plan_only_writes _ _ _ _ _ _ Hrun Hloc) as [? | (p & Hin & Hp)];
      [by left | right].
    apply elem_of_cons in Hin as [[=] | Hin].
    apply list_elem_of_lookup in Hin as (i & Hi).
    destruct (Forall2_lookup_l _ _ _ _ _ Hreal Hi) as (e & He & Hre).
    destruct e as [rel | rel c']; [done |].
    pose proof Hre as (_ & _ & _ & <-).
    apply list_elem_of_lookup_2 in He.
    exists rel. split; [by apply file_effect_generated |].
    apply (resolve_at fs' root r (WriteText p x) (NewFile rel x)); try done.
    rewrite Forall_forall in Hdots. by apply Hdots.
Qed.

(** * The materializer (project_generator.py) *)

Lemma is_dir_at_true t loc : is_dir_at t loc = true → t !! loc = Some Dir.
Proof. unfold is_dir_at. by destruct (t !! loc) as [[|x]|]. Qed.

Lemma well_formed_b_sound fs : well_formed_b fs = true → well_formed fs.
Proof.
  unfold well_formed_b.
  intros [[Hr Hc]%andb_true_iff Hall%forallb_true_Forall]%andb_true_iff.
  split; [by apply is_dir_at_true |]. split; [by apply is_dir_at_true |].
  intros loc c n Hl. apply elem_of_map_to_list in Hl.
  rewrite Forall_forall in Hall. apply Hall in Hl. simpl in Hl.
  rewrite removelast_last in Hl. destruct (loc ++ [c]) eqn:Heq.
  - by destruct loc.
  - by apply is_dir_at_true.
Qed.

Lemma well_formed_empty_fs : well_formed empty_fs.
Proof. by apply well_formed_b_sound. Qed.








(** ** A second call *)

Lemma same_plan g1 g2 root :
  package_name (config g2) = package_name (config g1) →
  Forall2 same_target (plan g1 root) (plan g2 root).
Proof.
  intros Hpkg. unfold plan, directories_made, files_written.
  rewrite Hpkg. cbv zeta. cbn [map app fst snd].
  repeat first [ apply Forall2_nil_2 | apply Forall2_cons_2; [reflexivity |] ].
Qed.

Lemma same_paths g1 g2 root :
  package_name (config g2) = package_name (config g1) →
  fst <$> files_written g2 root = fst <$> files_written g1 root.
Proof. intros Hpkg. unfold files_written. by rewrite Hpkg. Qed.

Lemma plan_writes self root p c :
  WriteText p c ∈ plan self root ↔ (p, c) ∈ files_written self root.
Proof.
  unfold plan. rewrite elem_of_app. split.
  - intros [Hin | Hin].
    + apply list_elem_of_fmap in Hin as (d & [=] & _).
    + by apply list_elem_of_fmap in Hin as ([p' c'] & [= -> ->] & Hin).
  - intros Hin. right.
    by apply (list_elem_of_fmap_2 (λ f, WriteText f.1 f.2) _ (p, c)).
Qed.

(** C3: after a call that returned, a call by a generator for the same
    package on the same project directory returns too. Every generated
    file holds what the second call wrote to it last, a file that was
    there before either call, at a place where no generated path leads,
    is unchanged, and nothing is removed. *)
Theorem second_call (g1 g2 : ProjectGenerator) (root : Path)
    (fs fs1 : FileSystem) :
  package_name (config g2) = package_name (config g1) →
  create_project g1 root fs = (Ok tt, fs1) →
  ∃ fs2,
    create_project g2 root fs1 = (Ok tt, fs2)
    ∧ (∀ before p content after,
         files_written g2 root = before ++ (p, content) :: after →
         (∀ p' c' loc, (p', c') ∈ after →
            resolve fs2 p = Ok loc → resolve fs2 p' ≠ Ok loc) →
         read_text p fs2 = Ok content)
    ∧ (plain (package_name (config g2)) = true →
       ∀ p content, (p, content) ∈ files_written g2 root →
         read_text p fs2 = Ok content)
    ∧ (∀ loc x,
         (∀ p c, (p, c) ∈ files_written g2 root → resolve fs2 p ≠ Ok loc) →
         nodes fs !! loc = Some (File x) ∨ nodes fs1 !! loc = Some (File x) →
         nodes fs2 !! loc = Some (File x))
    ∧ grows fs fs2.
Proof.
  intros Hpkg Hfirst.
  pose proof Hfirst as Hrun1. rewrite create_project_plan in Hrun1.
  pose proof (plan_settles _ _ _ Hrun1) as Hset.
  destruct (rerun _ _ fs1 (same_plan g1 g2 root Hpkg) Hset) as (fs2 & Hrun2).
  pose proof (plan_grows _ _ _ _ Hrun2) as Hg2.
  exists fs2. split; [by rewrite create_project_plan |].
  split; [| split; [| split]]; [ | | | 
    eapply grows_trans; [by eapply plan_grows | done] ].
  - intros before p content after Hsplit Hother.
    unfold plan in Hrun2. rewrite Hsplit in Hrun2.
    rewrite fmap_app, fmap_cons in Hrun2. cbn [fst snd] in Hrun2.
    change (WriteText p content :: ?l) with ([WriteText p content] ++ l) in Hrun2.
    rewrite !(assoc_L (++)) in Hrun2.
    apply for_each_app_inv in Hrun2 as (fs' & Hhead & Htail).
    eapply last_write_wins; [exact Hhead | exact Htail |].
    intros p' c' loc Hin. apply list_elem_of_fmap in Hin as ([q d] & [= -> ->] & Hin).
    by eapply Hother.
  - intros Hplain p content Hin.
    rewrite <- create_project_plan in Hrun2.
    destruct (generated_after_return g2 root fs1 fs2 Hplain Hrun2)
      as (r & _ & Hread & _).
    by apply Hread.
  - intros loc x Hother Hbefore.
    assert (nodes fs1 !! loc = Some (File x)) as H1.
    { destruct Hbefore as [H0 | H1]; [| done].
      eapply plan_frame; [exact Hrun1 | exact H0 |].
      intros p c Hin%plan_writes Hres.
      apply (list_elem_of_fmap_2 fst) in Hin.
      rewrite <- (same_paths g1 g2 root Hpkg) in Hin.
      apply list_elem_of_fmap in Hin as ([q d] & Hq & Hin).
      simpl in Hq. subst q.
      apply (Hother p d); [exact Hin |]. by eapply resolve_grows. }
    eapply plan_frame; [exact Hrun2 | exact H1 |].
    intros p c Hin%plan_writes. by apply (Hother p c).
Qed.

(** * The template catalog (templates.py) *)

(** C8: [get_template_config] returns the catalog entry of an identifier
    of the catalog, whose identifiers are standard, minimal and web, and
    raises a [ValueError] (the specification's NotFoundError) for any
    other; it raises for nonexistent, and the entry of standard has
    features. *)
Theorem get_template_config_lookup (id : string) :
  dom get_project_templates = ({["standard"; "minimal"; "web"]} : gset string)
  ∧ (∀ t, get_project_templates !! id = Some t → get_template_config id = Ok t)
  ∧ (id ∉ dom get_project_templates →
     get_template_config id = Raise (ValueError ("Unknown template: " +:+ id)))
  ∧ get_template_config "nonexistent"
    = Raise (ValueError "Unknown template: nonexistent")
  ∧ get_template_config "standard" = Ok standard_template
  ∧ get_template_config "minimal" = Ok minimal_template
  ∧ get_template_config "web" = Ok web_template
  ∧ features standard_template ≠ [].
Proof.
  split; [| split; [| split]].
  - unfold get_project_templates. rewrite !dom_insert_L, dom_empty_L.
    by rewrite (right_id_L ∅ (∪)), !(assoc_L (∪)).
  - intros t Ht. unfold get_template_config. by rewrite Ht.
  - intros Hid%not_elem_of_dom. unfold get_template_config. by rewrite Hid.
  - by repeat split.
Qed.

Lemma get_template_config_lookup_witness :
  get_template_config "minimal" = Ok minimal_template
  ∧ get_template_config "flask"
    = Raise (ValueError "Unknown template: flask").
Proof.
  destruct (get_template_config_lookup "minimal") as (_ & Hfound & _).
  destruct (get_template_config_lookup "flask") as (Hdom & _ & Hmissing & _).
  split.
  - by apply Hfound.
  - apply Hmissing. rewrite Hdom. intros Hin.
    repeat (apply elem_of_union in Hin as [Hin | Hin]);
      by apply elem_of_singleton in Hin.
Defined.

(** * The renderers (project_generator.py) *)

Lemma join_app l1 l2 : Str.join (l1 ++ l2) = Str.join l1 +:+ Str.join l2.
Proof.
  induction l1 as [|w l1 IH]; simpl; [reflexivity |].
  by rewrite IH, append_assoc.
Qed.

(** Consecutive pieces of a joined text are part of it. *)
Lemma contains_join_slice l i n :
  Str.contains (Str.join l) (Str.join (take n (drop i l))).
Proof.
  exists (Str.join (take i l)), (Str.join (drop n (drop i l))).
  rewrite <- !join_app. by rewrite !take_drop.
Qed.

Ltac find_pieces n i fuel :=
  lazymatch fuel with
  | O => fail "the pieces are not in the text"
  | S ?fuel' =>
      first [ exact (contains_join_slice _ i n)
            | find_pieces n constr:(S i) fuel' ]
  end.








(** ** Witnesses for the materializer *)

Lemma second_call_witness :
  ∃ fs2,
    create_project demo_generator_again (parse_path "work/demo")
      (snd (create_project demo_generator (parse_path "work/demo") used_fs))
    = (Ok tt, fs2)
    ∧ read_text (parse_path "work/demo" </> ".python-version") fs2 = Ok "3.13".
Proof.
  destruct (second_call demo_generator demo_generator_again
              (parse_path "work/demo") used_fs
              (snd (create_project demo_generator (parse_path "work/demo")
                      used_fs)))
    as (fs2 & Hrun & _ & Hread & _).
  - reflexivity.
  - by vm_compute.
  - exists fs2. split; [exact Hrun |].
    apply (Hread eq_refl).
    apply (list_elem_of_lookup_2 _ 1). reflexivity.
Defined.

Lemma python_version_file_witness :
  fst (create_project slash_generator (parse_path "work") empty_fs)
  = Raise FileNotFoundError
  ∧ read_text (parse_path "work" </> ".python-version")
      (snd (create_project slash_generator (parse_path "work") empty_fs))
    = Ok "3.12".
Proof.
  split; [by vm_compute |].
  by apply (python_version_file slash_generator (parse_path "work") empty_fs).
Defined.

(** * More on the derived names (config.py) *)



Lemma normalise_char_twice c :
  let f := λ a : ascii,
    Str.to_lower (if Ascii.eqb a "-" || Ascii.eqb a " " then "_"%char else a) in
  f (f c) = f c.
Proof. by_cases_on_char c. Qed.

Lemma package_name_as_specified_twice s :
  package_name_as_specified (package_name_as_specified s)
  = package_name_as_specified s.
Proof.
  unfold package_name_as_specified.
  induction s as [|c s IH]; simpl; [reflexivity |].
  rewrite IH. f_equal. apply (normalise_char_twice c).
Qed.

(** X2: the package name of a package name is that package name:
    normalising is idempotent. *)
Theorem package_name_idempotent (c c' : ProjectConfig) :
  name c' = package_name c → package_name c' = package_name c.
Proof.
  intros Hname. rewrite (package_name_one_pass c'), Hname.
  rewrite (package_name_one_pass c). apply package_name_as_specified_twice.
Qed.

Lemma package_name_idempotent_witness :
  package_name
    {| name := "my_cool_app"; python_version := "3.12";
       description := "A demo"; author := None; email := None |}
  = package_name my_cool_app.
Proof. by apply (package_name_idempotent my_cool_app). Defined.



(** ** The class name *)






Lemma camel_append (fresh : bool) (s t : string) (sep : ascii) :
  dash_or_whitespace sep = true →
  camel dash_or_whitespace fresh (s +:+ String sep t)
  = camel dash_or_whitespace fresh s +:+ camel dash_or_whitespace true t.
Proof.
  intros Hsep. revert fresh.
  induction s as [|c s IH]; intros fresh; simpl_str.
  - by rewrite Hsep.
  - destruct (dash_or_whitespace c); [apply IH |].
    rewrite append_cons. by rewrite IH.
Qed.

(** X5: the class name of two names joined by a dash or a whitespace character
    is the class name of the first followed by that of the second. *)
Theorem class_name_joined (c c1 c2 : ProjectConfig) (sep : ascii) :
  dash_or_whitespace sep = true →
  name c = name c1 +:+ String sep (name c2) →
  class_name c = class_name c1 +:+ class_name c2.
Proof.
  intros Hsep Hname. rewrite !class_name_camel, Hname.
  by apply camel_append.
Qed.

Lemma class_name_joined_witness :
  class_name my_cool_app
  = class_name
      {| name := "My-Cool"; python_version := "3.12"; description := "A demo";
         author := None; email := None |}
    +:+ class_name
      {| name := "App"; python_version := "3.12"; description := "A demo";
         author := None; email := None |}.
Proof.
  by apply (class_name_joined my_cool_app _ _ " "%char).
Defined.

(** * More on the renderers (project_generator.py) *)

Ltac find_all_pieces :=
  repeat lazymatch goal with
  | |- Str.contains _ (Str.join ?needle) ∧ _ =>
      split; [ let n := eval compute in (List.length needle) in
               find_pieces n constr:(0%nat) constr:(400%nat) | ]
  | |- Str.contains _ (Str.join ?needle) =>
      let n := eval compute in (List.length needle) in
      find_pieces n constr:(0%nat) constr:(400%nat)
  end.

(** X6: the README and the package's [__init__.py] name the author and the
    email as the manifest does: the configured text, or the placeholder
    when it is absent or empty. *)
Theorem author_in_readme_and_init (self : ProjectGenerator) :
  let who := Str.or_else (author (config self)) "Your Name" in
  let mail := Str.or_else (email (config self)) "your.email@example.com" in
  Str.contains (_get_readme_content self)
    (Str.join ["## Author"; nl; nl; who; " - "; mail; nl])
  ∧ Str.contains (_get_init_content self)
      (Str.join ["__author__ = "; dq; who; dq; nl;
                 "__email__ = "; dq; mail; dq; nl])
  ∧ (author (config self) = None ∨ author (config self) = Some EmptyString →
     who = "Your Name")
  ∧ (email (config self) = None ∨ email (config self) = Some EmptyString →
     mail = "your.email@example.com").
Proof.
  intros who mail. subst who mail.
  unfold _get_readme_content, _get_init_content.
  find_all_pieces.
  split; intros [-> | ->]; reflexivity.
Qed.

(** X7: the Python version of the configuration is the one the README
    requires, the one the type checker is set to, and the only entry of
    the matrix of the CI workflow, whose steps refer to it by the
    expression [${{ matrix.python-version }}]. *)
Theorem python_version_in_readme_and_ci (self : ProjectGenerator) :
  Str.contains (_get_readme_content self)
    (Str.join ["- Python "; python_version (config self); "+"; nl])
  ∧ Str.contains (_get_pyproject_content self)
      (Str.join ["pythonVersion = "; dq; python_version (config self); dq; nl])
  ∧ Str.contains (_get_github_actions_content self)
      (Str.join ["      matrix:"; nl;
                 "        python-version: ["; dq; python_version (config self);
                 dq; "]"; nl])
  ∧ Str.contains (_get_github_actions_content self)
      (Str.join ["        python-version: ${{ matrix.python-version }}"; nl]).
Proof.
  unfold _get_readme_content, _get_pyproject_content,
    _get_github_actions_content.
  find_all_pieces.
Qed.

(** X8: the generated test module imports [main] from the package
    [package_name], the directory of which the README shows under [src/];
    [main] prints the project name, and the test looks for the project
    name in what was printed. *)
Theorem names_in_generated_sources (self : ProjectGenerator) :
  Str.contains (_get_test_content self)
    (Str.join ["from "; package_name (config self); ".main import main"; nl])
  ∧ Str.contains (_get_test_content self)
      (Str.join ["    assert "; dq; name (config self); dq;
                 " in captured.out"; nl])
  ∧ Str.contains (_get_main_content self)
      (Str.join ["    print("; dq; "Hello from "; name (config self); "!"; dq;
                 ")"; nl])
  ∧ Str.contains (_get_readme_content self)
      (Str.join ["│   └── "; package_name (config self); "/"; nl;
                 "│       ├── __init__.py"; nl;
                 "│       └── main.py"; nl])
  ∧ Str.contains (_get_readme_content self)
      (Str.join ["│   └── test_"; package_name (config self); ".py"; nl]).
Proof.
  unfold _get_test_content, _get_main_content, _get_readme_content.
  find_all_pieces.
Qed.

Lemma last_char_join (l : list string) (t : string) :
  last l = Some t → t ≠ EmptyString →
  last_char (Str.join l) = last_char t.
Proof.
  intros Hl Ht. induction l as [|w l IH]; [discriminate Hl |].
  destruct l as [|w' l].
  - injection Hl as ->. simpl. by rewrite append_nil_r.
  - change (Str.join (w :: w' :: l)) with (w +:+ Str.join (w' :: l)).
    assert (Str.join (w' :: l) ≠ EmptyString) as Hne.
    { intros Hj. specialize (IH Hl). rewrite Hj in IH.
      destruct t; [done | ]. simpl in IH. by destruct (last_char t). }
    rewrite last_char_append; [by apply IH | exact Hne].
Qed.

(** X9: every rendered text ends with a line feed, whatever the
    configuration. *)
Theorem rendered_texts_end_with_newline (self : ProjectGenerator) :
  Forall (λ render : ProjectGenerator → string,
            last_char (render self) = Some "010"%char)
    [ _get_pyproject_content; _get_gitignore_content; _get_readme_content;
      _get_precommit_content; _get_github_actions_content; _get_init_content;
      _get_main_content; _get_test_content ].
Proof.
  repeat first [ apply Forall_nil_2 | apply Forall_cons_2 ];
    unfold _get_pyproject_content, _get_gitignore_content,
      _get_readme_content, _get_precommit_content,
      _get_github_actions_content, _get_init_content, _get_main_content,
      _get_test_content;
    by apply (last_char_join _ nl).
Qed.

(** * More on the template catalog (templates.py) *)

Ltac listed :=
  repeat first [ by apply list_elem_of_here | apply list_elem_of_further ].

Ltac one_of_listed H :=
  repeat (apply elem_of_cons in H as [-> | H]; [listed |]);
  by apply elem_of_nil in H.

(** X10: whatever template the catalog returns offers at least the features of
    the minimal template, and lists no feature twice. *)
Theorem every_template_has_minimal_features (id : string) (t : Template) :
  get_template_config id = Ok t →
  (∀ f, f ∈ features minimal_template → f ∈ features t)
  ∧ NoDup (features t).
Proof.
  unfold get_template_config, get_project_templates. intros Hget.
  destruct (decide (id = "standard")) as [-> | H1].
  { injection Hget as <-. split.
    - intros f Hf. unfold minimal_template, standard_template in *.
      simpl in *. one_of_listed Hf.
    - apply (bool_decide_unpack _). by vm_compute. }
  rewrite lookup_insert_ne in Hget by done.
  destruct (decide (id = "minimal")) as [-> | H2].
  { injection Hget as <-. split; [done |].
    apply (bool_decide_unpack _). by vm_compute. }
  rewrite lookup_insert_ne in Hget by done.
  destruct (decide (id = "web")) as [-> | H3].
  { injection Hget as <-. split.
    - intros f Hf. unfold minimal_template, web_template in *.
      simpl in *. one_of_listed Hf.
    - apply (bool_decide_unpack _). by vm_compute. }
  rewrite lookup_insert_ne in Hget by done. rewrite lookup_empty in Hget.
  discriminate Hget.
Qed.

Lemma every_template_has_minimal_features_witness :
  "pytest for testing" ∈ features web_template.
Proof.
  destruct (every_template_has_minimal_features "web" web_template eq_refl)
    as [Hsub _].
  apply Hsub. unfold minimal_template. simpl. listed.
Defined.

(** * More on the materializer (project_generator.py) *)

(** ** What a call keeps *)

(** X11: whether it returns or raises, [create_project] removes nothing, turns
    no file into a directory and no directory into a file, and leaves every
    file as it was to which none of the ten written paths leads. *)
Theorem create_project_keeps (self : ProjectGenerator) (root : Path)
    (fs : FileSystem) :
  grows fs (snd (create_project self root fs))
  ∧ ∀ loc x,
      nodes fs !! loc = Some (File x) →
      (∀ p c, (p, c) ∈ files_written self root →
         resolve (snd (create_project self root fs)) p ≠ Ok loc) →
      nodes (snd (create_project self root fs)) !! loc = Some (File x).
Proof.
  rewrite create_project_plan.
  destruct (for_each (plan self root) run fs) as [r fs'] eqn:Hrun. simpl.
  split; [by eapply plan_grows |].
  intros loc x Hloc Hother.
  eapply plan_frame; [exact Hrun | exact Hloc |].
  intros p c Hin. apply (Hother p c). by apply plan_writes.
Qed.

Lemma create_project_keeps_witness :
  nodes (snd (create_project demo_generator (parse_path "work/demo") used_fs))
    !! ["work"; "demo"; "NOTES.txt"] = Some (File "keep").
Proof.
  destruct (create_project_keeps demo_generator (parse_path "work/demo") used_fs)
    as [_ Hframe].
  apply Hframe; [reflexivity |].
  intros p c Hin.
  unfold files_written in Hin. simpl in Hin.
  repeat (apply elem_of_cons in Hin as [[= -> ->] | Hin];
          [by vm_compute |]).
  by apply elem_of_nil in Hin.
Defined.

(** ** A regular file in the place of the project directory *)

Lemma mkdir_parents_at_file a rparts fs :
  is_file {| anchored := a; parts := rev rparts |} fs = true →
  mkdir_parents a rparts fs = (Raise FileExistsError, fs).
Proof.
  intros (Hn & loc & x & Hr & Hl)%is_file_spec.
  rewrite mkdir_parents_unfold. cbv zeta.
  unfold os_mkdir. rewrite Hn, Hr, Hl.
  unfold unless_is_dir, is_dir. by rewrite Hn, Hr, Hl.
Qed.

(** X12: when the project path is a regular file, [create_project] raises
    [FileExistsError] and changes nothing. *)
Theorem create_project_at_file (self : ProjectGenerator) (root : Path)
    (fs : FileSystem) :
  is_file root fs = true →
  create_project self root fs = (Raise FileExistsError, fs).
Proof.
  intros Hfile. unfold create_project, bind, Path_mkdir.
  rewrite mkdir_parents_at_file; [reflexivity |].
  by rewrite rev_involutive, path_eta.
Qed.

Lemma create_project_at_file_witness :
  create_project demo_generator (parse_path "work/demo/NOTES.txt") used_fs
  = (Raise FileExistsError, used_fs).
Proof. by apply create_project_at_file. Defined.

(** ** Writing one file *)


(** ** The directory structure *)

Lemma mkdirs_post {A} (path_of : A → Path) (l : list A) : ∀ fs r fs',
  for_each l (λ x, Path_mkdir (path_of x)) fs = (r, fs') →
  only_new_dirs fs fs'
  ∧ (r = Ok tt → Forall (λ x, is_dir (path_of x) fs' = true) l).
Proof.
  induction l as [|x l IH]; intros fs r fs'.
  - intros [= <- <-]. split; [apply only_new_dirs_refl | by constructor].
  - intros [(e & Hx & ->) | (fs1 & Hx & Hl)]%for_each_cons.
    + apply Path_mkdir_post in Hx as [Hnew _]. by split.
    + apply Path_mkdir_post in Hx as [Hnew Hdir].
      destruct (IH _ _ _ Hl) as [Hnew' Hdirs].
      split; [by eapply only_new_dirs_trans |].
      intros ->. constructor; [| by apply Hdirs].
      eapply is_dir_grows; [by apply only_new_dirs_grows | by apply Hdir].
Qed.

Lemma mkdirs_existing {A} (path_of : A → Path) (l : list A) fs :
  Forall (λ x, is_dir (path_of x) fs = true) l →
  for_each l (λ x, Path_mkdir (path_of x)) fs = (Ok tt, fs).
Proof.
  induction 1 as [|x l Hx Hl IH]; [reflexivity |].
  simpl. unfold bind. by rewrite Path_mkdir_existing.
Qed.

(** X14: [_create_directory_structure] touches no file: all it does is add
    directories where there was nothing. When it returns, the five
    directories exist, and making them again changes nothing. *)
Theorem directory_structure_made (self : ProjectGenerator)
    (project_path : Path) (fs : FileSystem) :
  let after := _create_directory_structure self project_path fs in
  only_new_dirs fs (snd after)
  ∧ (fst after = Ok tt →
     Forall (λ directory, is_dir (project_path </> directory) (snd after) = true)
       [ "src"; "src/" +:+ package_name (config self); "tests"; ".github";
         ".github/workflows" ]
     ∧ _create_directory_structure self project_path (snd after)
       = (Ok tt, snd after)).
Proof.
  unfold _create_directory_structure.
  destruct (for_each _ _ fs) as [r fs'] eqn:Hrun. cbn [fst snd].
  apply (mkdirs_post (λ d, project_path </> d)) in Hrun as [Hnew Hdirs].
  split; [exact Hnew |]. intros ->.
  split; [by apply Hdirs |].
  apply (mkdirs_existing (λ d, project_path </> d)). by apply Hdirs.
Qed.

Lemma directory_structure_made_witness :
  is_dir (parse_path "work" </> "src/a/b")
    (snd (_create_directory_structure slash_generator (parse_path "work")
            empty_fs)) = true.
Proof.
  destruct (directory_structure_made slash_generator (parse_path "work")
              empty_fs) as [_ H].
  destruct (H eq_refl) as [Hdirs _].
  rewrite Forall_forall in Hdirs. apply (Hdirs "src/a/b").
  apply list_elem_of_further, list_elem_of_here.
Defined.

(** ** The catalog plays no part *)

Lemma plan_reads_config g1 g2 root :
  config g1 = config g2 → plan g1 root = plan g2 root.
Proof.
  intros Hc.
  unfold plan, directories_made, files_written, _get_pyproject_content,
    _get_gitignore_content, _get_readme_content, _get_precommit_content,
    _get_github_actions_content, _get_init_content, _get_main_content,
    _get_test_content.
  by rewrite Hc.
Qed.

(** X15: [create_project] reads the configuration of the generator and nothing
    else of it: two generators with the same configuration, whatever their
    catalogs, do the same to every file system. *)
Theorem create_project_reads_config (g1 g2 : ProjectGenerator) (root : Path)
    (fs : FileSystem) :
  config g1 = config g2 →
  create_project g1 root fs = create_project g2 root fs.
Proof.
  intros Hc. rewrite !create_project_plan. by rewrite (plan_reads_config g1 g2).
Qed.

Lemma create_project_reads_config_witness :
  create_project demo_generator (parse_path "work/demo") used_fs
  = create_project {| config := config demo_generator; templates := ∅ |}
      (parse_path "work/demo") used_fs.
Proof. by apply create_project_reads_config. Defined.

(** ** Running the same actions again *)

Lemma overwrite_lookup ws : ∀ t k,
  overwrite ws t !! k = match final ws k with
                        | Some n => Some n
                        | None => t !! k
                        end.
Proof.
  induction ws as [|w ws IH]; intros t k; [reflexivity |].
  change (overwrite (w :: ws) t) with (overwrite ws (<[w.1 := w.2]> t)).
  rewrite IH. simpl. destruct (final ws k); [reflexivity |].
  destruct (decide (w.1 = k)) as [<- | Hne].
  - by rewrite lookup_insert_eq.
  - by rewrite lookup_insert_ne.
Qed.

Lemma final_none_writes l fs k :
  final (writes l fs) k = None →
  ∀ p c, WriteText p c ∈ l → resolve fs p ≠ Ok k.
Proof.
  induction l as [|a l IH]; intros Hfin p c Hin; [by apply elem_of_nil in Hin |].
  destruct a as [q | q content]; simpl in Hfin.
  - apply elem_of_cons in Hin as [[=] | Hin]. by eapply IH.
  - destruct (resolve fs q) as [loc | e] eqn:Hq.
    + simpl in Hfin. destruct (final (writes l fs) k) eqn:Hrest; [done |].
      destruct (decide (loc = k)) as [-> | Hne]; [done |].
      apply elem_of_cons in Hin as [[= -> ->] | Hin]; [congruence |].
      by eapply IH.
    + apply elem_of_cons in Hin as [[= -> ->] | Hin]; [congruence |].
      by eapply IH.
Qed.

(** After the actions have run, each place they wrote to holds what the
    last of them put there. *)
Lemma writes_hold l : ∀ fs fs1 k n,
  for_each l run fs = (Ok tt, fs1) →
  final (writes l fs1) k = Some n → nodes fs1 !! k = Some n.
Proof.
  induction l as [|a l IH]; intros fs fs1 k n; [done |].
  intros [(e & _ & ?) | (fsa & Ha & Hl)]%for_each_cons; [done |].
  destruct a as [p | p c]; simpl; [by eapply IH |].
  pose proof (plan_grows _ _ _ _ Hl) as Hg.
  pose proof (run_grows _ _ _ _ Ha) as Hga.
  simpl in Ha. apply write_text_spec in Ha
    as [(_ & Hn & loc & Hr & Hloc & ->) | (e & ? & _)]; [| done].
  assert (resolve fs1 p = Ok loc) as ->.
  { eapply resolve_grows; [exact Hg |]. by eapply resolve_grows. }
  simpl. destruct (final (writes l fs1) k) as [n' |] eqn:Hrest.
  - intros [= <-]. by eapply IH.
  - destruct (decide (loc = k)) as [<- | Hne]; [| done]. intros [= <-].
    eapply plan_frame; [exact Hl | simpl; by rewrite lookup_insert_eq |].
    by apply final_none_writes.
Qed.

Lemma writes_grows l fs fs' :
  Forall (λ a, settled a fs) l → grows fs fs' → writes l fs' = writes l fs.
Proof.
  intros Hset Hg. induction Hset as [|a l Ha Hl IH]; [reflexivity |].
  destruct a as [p | p c]; simpl; [exact IH |].
  simpl in Ha. apply is_file_spec in Ha as (_ & loc & x & Hr & _).
  rewrite Hr, (resolve_grows _ _ _ _ Hg Hr). by rewrite IH.
Qed.

(** Actions that are settled write again and do nothing else. *)
Lemma rerun_overwrites l : ∀ fs,
  Forall (λ a, settled a fs) l →
  for_each l run fs
  = (Ok tt, set_nodes (overwrite (writes l fs) (nodes fs)) fs).
Proof.
  induction l as [|a l IH]; intros fs Hset.
  - simpl. unfold ret. by rewrite set_nodes_id.
  - inversion Hset as [|? ? Ha Hl]; subst.
    destruct a as [p | p c].
    + rewrite (for_each_cons_ok _ _ _ fs fs); [by apply IH |].
      by apply Path_mkdir_existing.
    + simpl in Ha. apply is_file_spec in Ha as (Hn & loc & x & Hr & Hloc).
      assert (nodes fs !! loc ≠ Some Dir) as Hnd by congruence.
      rewrite (for_each_cons_ok _ _ _ fs
                 (set_nodes (<[loc := File c]> (nodes fs)) fs));
        [| by apply write_text_ok].
      pose proof (grows_write fs loc c Hnd) as Hg.
      rewrite IH.
      * rewrite (writes_grows l fs _ Hl Hg). simpl. by rewrite Hr.
      * eapply Forall_impl; [exact Hl |]. intros b Hb.
        by eapply settled_grows.
Qed.

Lemma run_twice l fs fs1 :
  for_each l run fs = (Ok tt, fs1) → for_each l run fs1 = (Ok tt, fs1).
Proof.
  intros Hrun. rewrite rerun_overwrites by (by eapply plan_settles).
  f_equal. transitivity (set_nodes (nodes fs1) fs1); [| apply set_nodes_id].
  f_equal. apply map_eq. intros k. rewrite overwrite_lookup.
  destruct (final (writes l fs1) k) as [n |] eqn:Hfin; [| reflexivity].
  symmetry. by eapply writes_hold.
Qed.

(** X16: [create_project] is idempotent: called again, with the same
    configuration and on the same path, after it has returned, it returns
    and leaves the file system exactly as the first call left it. *)
Theorem create_project_idempotent (self : ProjectGenerator) (root : Path)
    (fs fs1 : FileSystem) :
  create_project self root fs = (Ok tt, fs1) →
  create_project self root fs1 = (Ok tt, fs1).
Proof. rewrite !create_project_plan. apply run_twice. Qed.

Lemma create_project_idempotent_witness :
  create_project demo_generator (parse_path "work/demo")
    (snd (create_project demo_generator (parse_path "work/demo") used_fs))
  = (Ok tt, snd (create_project demo_generator (parse_path "work/demo") used_fs)).
Proof.
  apply (create_project_idempotent _ _ used_fs).
  destruct (create_project demo_generator (parse_path "work/demo") used_fs)
    as [r fs'] eqn:Hrun.
  assert (r = Ok tt) as ->; [| reflexivity].
  change r with (fst (r, fs')). rewrite <- Hrun. by vm_compute.
Defined.

(** ** A call that raises *)

Lemma for_each_raise_inv {A} (body : A → M unit) (l : list A) : ∀ fs e fs',
  for_each l body fs = (Raise e, fs') →
  ∃ done a rest fs_mid,
    l = done ++ a :: rest
    ∧ for_each done body fs = (Ok tt, fs_mid)
    ∧ body a fs_mid = (Raise e, fs').
Proof.
  induction l as [|x l IH]; intros fs e fs'; [done |].
  intros [(e' & Hx & [= <-]) | (fs1 & Hx & Hl)]%for_each_cons.
  - by exists [], x, l, fs.
  - destruct (IH _ _ _ Hl) as (done & a & rest & fs_mid & -> & Hdone & Ha).
    exists (x :: done), a, rest, fs_mid.
    split; [done |]. split; [| done].
    by rewrite (for_each_cons_ok _ _ _ fs fs1).
Qed.

(** X17: nothing is rolled back. When [create_project] raises, the exception is
    that of the first step that fails, and every directory made and every
    file written by the steps before it is still there. *)
Theorem create_project_no_rollback (self : ProjectGenerator) (root : Path)
    (fs : FileSystem) (e : exn) (fs' : FileSystem) :
  create_project self root fs = (Raise e, fs') →
  ∃ done a rest fs_mid,
    plan self root = done ++ a :: rest
    ∧ for_each done run fs = (Ok tt, fs_mid)
    ∧ run a fs_mid = (Raise e, fs')
    ∧ Forall (λ step, settled step fs') done.
Proof.
  rewrite create_project_plan.
  intros (done & a & rest & fs_mid & Hplan & Hdone & Ha)%for_each_raise_inv.
  exists done, a, rest, fs_mid. do 3 (split; [done |]).
  eapply Forall_impl; [by eapply plan_settles |].
  intros step Hstep. eapply settled_grows; [by eapply run_grows | done].
Qed.

Lemma create_project_no_rollback_witness :
  ∃ done a rest fs_mid,
    plan slash_generator (parse_path "work") = done ++ a :: rest
    ∧ for_each done run empty_fs = (Ok tt, fs_mid)
    ∧ run a fs_mid
      = (Raise FileNotFoundError,
         snd (create_project slash_generator (parse_path "work") empty_fs))
    ∧ Forall (λ step,
                settled step
                  (snd (create_project slash_generator (parse_path "work")
                          empty_fs))) done.
Proof.
  apply (create_project_no_rollback slash_generator (parse_path "work") empty_fs).
  destruct (create_project slash_generator (parse_path "work") empty_fs)
    as [r fs'] eqn:Hrun.
  assert (r = Raise FileNotFoundError) as ->; [| reflexivity].
  change r with (fst (r, fs')). rewrite <- Hrun. by vm_compute.
Defined.

(** ** Where a call adds entries *)

Lemma os_mkdir_where p fs r fs' :
  os_mkdir p fs = (r, fs') →
  ∀ k, nodes fs' !! k = nodes fs !! k ∨ resolve fs' p = Ok k.
Proof.
  intros Hrun k.
  pose proof (os_mkdir_post _ _ _ _ Hrun) as [Hnew _].
  apply os_mkdir_spec in Hrun
    as [(_ & _ & loc & Hres & _ & ->) | (e & _ & ->)]; [| by left].
  destruct (decide (loc = k)) as [<- | Hne].
  - right. eapply resolve_grows; [| exact Hres].
    by apply only_new_dirs_grows.
  - left. simpl. by rewrite lookup_insert_ne.
Qed.

Lemma mkdir_exist_ok_where p fs r fs' :
  mkdir_exist_ok p fs = (r, fs') →
  ∀ k, nodes fs' !! k = nodes fs !! k ∨ resolve fs' p = Ok k.
Proof.
  unfold mkdir_exist_ok. intros Hrun.
  destruct (os_mkdir p fs) as [[[] | e] fs1] eqn:Hmk.
  - injection Hrun as <- <-. by eapply os_mkdir_where.
  - apply os_mkdir_spec in Hmk as [(? & _) | (_ & _ & ->)]; [done |].
    assert (fs' = fs) as ->; [| by left].
    destruct e; try (by injection Hrun);
      by apply unless_is_dir_post in Hrun as [-> _].
Qed.

(** A directory made by [mkdir(parents=True)] is one the first
    components of the path lead to. *)
Lemma mkdir_parents_where a rparts : ∀ fs r fs',
  mkdir_parents a rparts fs = (r, fs') →
  ∀ k, nodes fs' !! k = nodes fs !! k
       ∨ ∃ n, resolve fs' {| anchored := a; parts := take n (rev rparts) |}
              = Ok k.
Proof.
  induction rparts as [|c rparent IH]; intros fs r fs' Hrun k;
    rewrite mkdir_parents_unfold in Hrun; cbv zeta in Hrun;
    destruct (os_mkdir _ fs) as [[[] | e] fs1] eqn:Hmk.
  - injection Hrun as <- <-.
    destruct (os_mkdir_where _ _ _ _ Hmk k) as [? | Hk]; [by left | right].
    exists 0. by rewrite take_0.
  - apply os_mkdir_spec in Hmk as [(? & _) | (_ & _ & ->)]; [done |].
    assert (fs' = fs) as ->; [| by left].
    destruct e; try (by injection Hrun);
      by apply unless_is_dir_post in Hrun as [-> _].
  - injection Hrun as <- <-.
    destruct (os_mkdir_where _ _ _ _ Hmk k) as [? | Hk]; [by left | right].
    exists (List.length (rev (c :: rparent))). by rewrite firstn_all.
  - apply os_mkdir_spec in Hmk as [(? & _) | (_ & _ & ->)]; [done |].
    destruct e; try (apply unless_is_dir_post in Hrun as [-> _]; by left).
    unfold bind in Hrun.
    destruct (mkdir_parents a rparent fs) as [[[] | e] fs2] eqn:Hparent.
    + pose proof (mkdir_exist_ok_post _ _ _ _ Hrun) as [Hnew _].
      destruct (mkdir_exist_ok_where _ _ _ _ Hrun k) as [Hsame | Hk].
      * destruct (IH _ _ _ Hparent k) as [Hsame' | (n & Hn)];
          [left; congruence | right].
        exists (n `min` List.length (rev rparent)).
        simpl rev. rewrite take_app_le by lia.
        rewrite <- take_take, firstn_all.
        eapply resolve_grows; [| exact Hn]. by apply only_new_dirs_grows.
      * right. exists (List.length (rev (c :: rparent))). by rewrite firstn_all.
    + injection Hrun as <- <-.
      destruct (IH _ _ _ Hparent k) as [? | (n & Hn)]; [by left | right].
      exists (n `min` List.length (rev rparent)).
      simpl rev. rewrite take_app_le by lia.
      by rewrite <- take_take, firstn_all.
Qed.

(** An entry that the actions add or change lies where the first
    components of a directory path, or a file path, lead to. *)
Lemma plan_where l : ∀ fs r fs',
  for_each l run fs = (r, fs') →
  ∀ k, nodes fs' !! k = nodes fs !! k
       ∨ (∃ p n, MkDir p ∈ l
                 ∧ resolve fs' {| anchored := anchored p;
                                  parts := take n (parts p) |} = Ok k)
       ∨ (∃ p c, WriteText p c ∈ l ∧ resolve fs' p = Ok k).
Proof.
  induction l as [|a l IH]; intros fs r fs' Hrun k.
  - injection Hrun as <- <-. by left.
  - assert (∀ r1 fs1, run a fs = (r1, fs1) → grows fs1 fs' →
              nodes fs1 !! k = nodes fs !! k
              ∨ (∃ p n, MkDir p ∈ a :: l
                        ∧ resolve fs' {| anchored := anchored p;
                                         parts := take n (parts p) |} = Ok k)
              ∨ (∃ p c, WriteText p c ∈ a :: l ∧ resolve fs' p = Ok k))
      as Hstep.
    { intros r1 fs1 Ha Hg. destruct a as [p | p c]; simpl in Ha.
      - unfold Path_mkdir in Ha.
        destruct (mkdir_parents_where _ _ _ _ _ Ha k) as [? | (n & Hn)];
          [by left | right; left].
        rewrite rev_involutive in Hn. exists p, n.
        split; [apply list_elem_of_here |]. by eapply resolve_grows.
      - pose proof (run_grows (WriteText p c) _ _ _ Ha) as Hg1.
        apply write_text_spec in Ha
          as [(_ & _ & loc & Hres & _ & ->) | (e & _ & ->)]; [| by left].
        destruct (decide (loc = k)) as [<- | Hne].
        + right; right. exists p, c. split; [apply list_elem_of_here |].
          eapply resolve_grows; [exact Hg |]. by eapply resolve_grows.
        + left. simpl. by rewrite lookup_insert_ne. }
    apply for_each_cons in Hrun as [(e & Ha & _) | (fs1 & Ha & Hl)].
    + apply (Hstep _ _ Ha), grows_refl.
    + destruct (IH _ _ _ Hl k) as [Hsame | [(p & n & Hin & Hk) | (p & c & Hin & Hk)]].
      * destruct (Hstep _ _ Ha (plan_grows _ _ _ _ Hl)) as [? | ?];
          [left; congruence | by right].
      * right; left. exists p, n. split; [by apply list_elem_of_further | done].
      * right; right. exists p, c. split; [by apply list_elem_of_further | done].
Qed.

Lemma Path_mkdir_nul p fs :
  has_nul p = true →
  Path_mkdir p fs = (Raise (ValueError "embedded null byte"), fs).
Proof.
  intros Hnul. unfold Path_mkdir. rewrite mkdir_parents_unfold. cbv zeta.
  rewrite rev_involutive, path_eta. unfold os_mkdir. by rewrite Hnul.
Qed.

Lemma take_below (ps rel : list string) (n : nat) :
  take n (ps ++ rel) `prefix_of` ps
  ∨ ∃ m, take n (ps ++ rel) = ps ++ take (S m) rel.
Proof.
  destruct (decide (n ≤ List.length ps)) as [Hle | Hgt].
  - left. rewrite take_app_le by done. apply prefix_take.
  - right. exists (n - List.length ps - 1).
    rewrite take_app_ge by lia. f_equal. f_equal. lia.
Qed.

Lemma generated_directories_take self rel m :
  rel ∈ generated_directories self →
  take (S m) rel ∈ generated_directories self.
Proof.
  unfold generated_directories. intros Hin.
  repeat (apply elem_of_cons in Hin as [-> | Hin];
          [destruct m as [|[|m]]; simpl;
           repeat first [ by apply list_elem_of_here
                        | apply list_elem_of_further ] |]).
  by apply elem_of_nil in Hin.
Qed.

(** The paths of the plan: the project path followed by the components of
    a generated directory or of a generated file. *)
Lemma plan_paths self root :
  plain (package_name (config self)) = true → has_nul root = false →
  (∀ p, MkDir p ∈ plan self root →
        anchored p = anchored root
        ∧ ∃ rel, parts p = parts root ++ rel
                 ∧ Forall (λ c, c ≠ "..") rel
                 ∧ (rel = [] ∨ rel ∈ generated_directories self))
  ∧ (∀ p c, WriteText p c ∈ plan self root →
        anchored p = anchored root
        ∧ ∃ rel, parts p = parts root ++ rel
                 ∧ Forall (λ c, c ≠ "..") rel
                 ∧ (rel, c) ∈ generated_files self).
Proof.
  intros Hpkg Hnul.
  pose proof (plan_realises self root Hpkg Hnul) as Hreal.
  pose proof (relative_not_dotdot self Hpkg) as Hdots.
  rewrite Forall_forall in Hdots.
  change (plan self root) with (MkDir root :: tail (plan self root)).
  split.
  - intros p [[= ->] | Hin]%elem_of_cons.
    { split; [done |]. exists []. rewrite app_nil_r. by repeat split; [|left]. }
    apply list_elem_of_lookup in Hin as (i & Hi).
    destruct (Forall2_lookup_l _ _ _ _ _ Hreal Hi) as (e & He & Hre).
    destruct e as [rel | rel c]; [| done].
    destruct Hre as (Hanch & Hparts & _). split; [done |]. exists rel.
    apply list_elem_of_lookup_2 in He. split; [done |].
    split; [by apply (Hdots _ He) |]. right.
    unfold project_effects in He. apply elem_of_app in He as [He | He].
    + apply list_elem_of_fmap in He as (rel' & [= ->] & Hrel). done.
    + by apply list_elem_of_fmap in He as (f & [=] & _).
  - intros p c [[=] | Hin]%elem_of_cons.
    apply list_elem_of_lookup in Hin as (i & Hi).
    destruct (Forall2_lookup_l _ _ _ _ _ Hreal Hi) as (e & He & Hre).
    destruct e as [rel | rel c']; [done |].
    destruct Hre as (Hanch & Hparts & _ & <-). split; [done |]. exists rel.
    apply list_elem_of_lookup_2 in He. split; [done |].
    split; [by apply (Hdots _ He) |]. by apply file_effect_generated.
Qed.

(** X18: with a plain package name, and a project path without double dots,
    [create_project] stays inside the project directory: whether it
    returns or raises, every entry it adds or changes is the project
    directory, a directory on the way to it, one of the five directories
    or one of the ten files. *)
Theorem create_project_stays_inside (self : ProjectGenerator) (root : Path)
    (fs : FileSystem) (k : list string) :
  plain (package_name (config self)) = true →
  Forall (λ c, c ≠ "..") (parts root) →
  nodes (snd (create_project self root fs)) !! k = nodes fs !! k
  ∨ k `prefix_of` (start fs root ++ parts root)
  ∨ ∃ rel,
      k = start fs root ++ parts root ++ rel
      ∧ (rel ∈ generated_directories self
         ∨ rel ∈ (generated_files self).*1).
Proof.
  intros Hpkg Hroot.
  destruct (has_nul root) eqn:Hnul.
  { left. unfold create_project, bind. by rewrite Path_mkdir_nul. }
  destruct (plan_paths self root Hpkg Hnul) as [Hdirs Hfiles].
  rewrite create_project_plan.
  destruct (for_each (plan self root) run fs) as [r fs'] eqn:Hrun.
  cbn [snd].
  pose proof (plan_grows _ _ _ _ Hrun) as [Hcwd _].
  destruct (plan_where _ _ _ _ Hrun k)
    as [? | [(p & n & Hin & Hk) | (p & c & Hin & Hk)]]; [by left | |]; right.
  - destruct (Hdirs p Hin) as (Hanch & rel & Hparts & Hdots & Hrel).
    unfold resolve, start in Hk. cbn [anchored parts] in Hk.
    rewrite Hanch, Hcwd, Hparts in Hk. fold (start fs root) in Hk.
    apply walk_result in Hk;
      [| apply Forall_take; by apply Forall_app].
    subst k.
    destruct (take_below (parts root) rel n) as [Hpre | (m & ->)].
    + left. by apply prefix_app.
    + destruct Hrel as [-> | Hrel].
      * left. by rewrite take_nil, app_nil_r.
      * right. eexists. split; [reflexivity |]. left.
        by apply generated_directories_take.
  - destruct (Hfiles p c Hin) as (Hanch & rel & Hparts & Hdots & Hrel).
    unfold resolve, start in Hk. rewrite Hanch, Hcwd, Hparts in Hk.
    fold (start fs root) in Hk.
    apply walk_result in Hk; [| by apply Forall_app].
    subst k. right. exists rel. split; [done |]. right.
    apply list_elem_of_fmap. by exists (rel, c).
Qed.

Lemma create_project_stays_inside_witness :
  nodes (snd (create_project demo_generator (parse_path "work/demo") used_fs))
    !! ["home"] = nodes used_fs !! ["home"].
Proof.
  assert (Forall (λ c : string, c ≠ "..") (parts (parse_path "work/demo")))
    as Hroot by (repeat constructor; done).
  destruct (create_project_stays_inside demo_generator (parse_path "work/demo")
              used_fs ["home"] eq_refl Hroot)
    as [Hsame | [[rest Hrest] | (rel & Heq & _)]];
    [exact Hsame | discriminate Hrest | discriminate Heq].
Defined.

(** ** The layout after a call that returns *)

(** X19: when [create_project] returns, whatever the name, the project path and
    the five paths below it are directories, and the ten written paths are
    regular files. *)
Theorem create_project_layout (self : ProjectGenerator) (root : Path)
    (fs fs' : FileSystem) :
  create_project self root fs = (Ok tt, fs') →
  Forall (λ d, is_dir d fs' = true) (directories_made self root)
  ∧ Forall (λ f, is_file f.1 fs' = true) (files_written self root).
Proof.
  rewrite create_project_plan. intros Hset%plan_settles.
  unfold plan in Hset. apply Forall_app in Hset as [Hdirs Hfiles].
  rewrite Forall_fmap in Hdirs. rewrite Forall_fmap in Hfiles.
  by split.
Qed.

Lemma create_project_layout_witness :
  is_dir (parse_path "work/demo" </> ".github/workflows")
    (snd (create_project demo_generator (parse_path "work/demo") used_fs))
  = true.
Proof.
  destruct (create_project demo_generator (parse_path "work/demo") used_fs)
    as [r fs'] eqn:Hrun.
  assert (r = Ok tt) as ->.
  { change r with (fst (r, fs')). rewrite <- Hrun. by vm_compute. }
  destruct (create_project_layout _ _ _ _ Hrun) as [Hdirs _].
  rewrite Forall_forall in Hdirs. apply Hdirs.
  unfold directories_made.
  repeat first [ by apply list_elem_of_here | apply list_elem_of_further ].
Defined.

(** * The command line (cli.py) *)

Lemma show_files s w : files (show s w) = files w.
Proof. reflexivity. Qed.

Lemma world_eta w : {| files := files w; screen := screen w |} = w.
Proof. by destruct w. Qed.

Lemma falsy_false a :
  falsy a = false → ∃ s, a = Some s ∧ s ≠ EmptyString.
Proof. destruct a as [[|c s]|]; try done. intros _. by eexists. Qed.

(** What [_gather_project_info] does, step by step. *)
Lemma gather_spec (user : User) (config : ProjectConfig) (w : World) :
  ∃ config' asked w',
    _gather_project_info user config w = (Returned config', w')
    ∧ files w' = files w ∧ screen w' = screen w ++ asked
    ∧ Forall2 asks asked (missing config)
    ∧ name config' = name config
    ∧ python_version config' = python_version config
    ∧ (falsy (author config) = false → author config' = author config)
    ∧ (falsy (email config) = false → email config' = email config)
    ∧ (description_missing config = false →
       description config' = description config)
    ∧ is_Some (author config') ∧ is_Some (email config').
Proof.
  unfold _gather_project_info, bind_C, Prompt_ask, unit_C, show, missing,
    description_missing, asks.
  destruct config as [n pv d a e]. simpl.
  destruct (falsy a) eqn:Ha; simpl;
    (destruct (falsy e) eqn:He; simpl);
    (destruct (negb (Str.truthy d)
               || String.eqb d ("A Python project called " +:+ n));
     simpl; rewrite <- ?app_assoc; simpl);
    eexists _, _, _; (split; [reflexivity |]); simpl;
    (split; [reflexivity |]);
    (split; [first [ reflexivity | symmetry; apply app_nil_r ] |]);
    (split; [repeat first [ apply Forall2_nil_2
                          | apply Forall2_cons_2; [eexists; reflexivity |] ] |]);
    do 5 (split; [done |]);
    first [ by split
          | apply falsy_false in Ha as (s & -> & _); by split
          | apply falsy_false in He as (s & -> & _); by split
          | apply falsy_false in Ha as (s & -> & _);
            apply falsy_false in He as (s' & -> & _); by split ].
Qed.

(** ** The command [create], case by case *)

Lemma bind_C_returned {A B} (m : C A) (k : A → C B) w a w' :
  m w = (Returned a, w') → bind_C m k w = k a w'.
Proof. intros H. unfold bind_C. by rewrite H. Qed.

Lemma bind_C_raised {A B} (m : C A) (k : A → C B) w e w' :
  m w = (Raised e, w') → bind_C m k w = (Raised e, w').
Proof. intros H. unfold bind_C. by rewrite H. Qed.

Lemma try_except_returned {A} (body : C A) handler w a w' :
  body w = (Returned a, w') → try_except body handler w = (Returned a, w').
Proof. intros H. unfold try_except. by rewrite H. Qed.

Lemma try_except_raised {A} (body : C A) handler w e w' :
  body w = (Raised e, w') → try_except body handler w = handler e w'.
Proof. intros H. unfold try_except. by rewrite H. Qed.

Lemma summary_files config project_path w :
  fst (_show_project_summary config project_path w) = Returned tt
  ∧ files (snd (_show_project_summary config project_path w)) = files w
  ∧ ∃ panel, screen (snd (_show_project_summary config project_path w))
             = screen w ++ [panel]
             ∧ ¬ is_prompt panel.
Proof.
  unfold _show_project_summary, console_print_panel. simpl.
  split; [done |]. split; [done |]. eexists. split; [reflexivity |]. by intros [].
Qed.

Lemma summary_returns config project_path w :
  _show_project_summary config project_path w
  = (Returned tt, snd (_show_project_summary config project_path w)).
Proof. reflexivity. Qed.

Lemma success_returns project_path config w :
  _show_success_message project_path config w
  = (Returned tt, snd (_show_success_message project_path config w)).
Proof. reflexivity. Qed.

(** [Confirm.ask], and the cancellation when the user declines. *)
Lemma confirm_or_cancel (user : User) (prompt : string) (w : World) :
  (let* agreed := Confirm_ask user prompt in
   if negb agreed then
     let* _ := console_print "Operation cancelled." (Some "yellow") in
     raise (Exit 1)
   else unit_C tt) w
  = if confirms user (screen w) prompt
    then (Returned tt, show (Confirmed prompt true) w)
    else (Raised (Exit 1),
          {| files := files w;
             screen := screen w
                       ++ [ Confirmed prompt false;
                            Printed "Operation cancelled." (Some "yellow") ] |}).
Proof.
  unfold bind_C, Confirm_ask, console_print, raise, unit_C, show.
  destruct (confirms user (screen w) prompt); simpl; [reflexivity |].
  by rewrite <- app_assoc.
Qed.

Lemma on_files_run {A} (m : M A) (w : World) :
  on_files m w
  = match m (files w) with
    | (Ok a, fs) => (Returned a, {| files := fs; screen := screen w |})
    | (Raise e, fs) =>
        (Raised (Exception e), {| files := fs; screen := screen w |})
    end.
Proof. reflexivity. Qed.

(** The five ways in which [create] ends. *)
Lemma create_cases (user : User) (project_name : string) (path : option Path)
    (python_version : string) (description author email : option string)
    (interactive : bool) (w : World) :
  let project_path := project_path_of path project_name (files w) in
  let q := overwrite_question project_name in
  let ended :=
    create user project_name path python_version description author email
      interactive w in
  (Path_exists project_path (files w) = true
   ∧ confirms user (screen w) q = false
   ∧ ended = (Raised (Exit 1),
              {| files := files w; screen := screen w ++ cancelled q |}))
  ∨ ∃ w1,
      (Path_exists project_path (files w) = false ∧ w1 = w
       ∨ Path_exists project_path (files w) = true
         ∧ confirms user (screen w) q = true
         ∧ w1 = show (Confirmed q true) w)
      ∧ ((∃ e,
            config_of_arguments project_name python_version description
              author email = Raise e
            ∧ ended = (Raised (Exit 1),
                       show (PrintedError (Exception e) (Some "red")) w1))
         ∨ ∃ given config w2,
             config_of_arguments project_name python_version description
               author email = Ok given
             ∧ (interactive = false ∧ config = given ∧ w2 = w1
                ∨ interactive = true
                  ∧ _gather_project_info user given w1 = (Returned config, w2))
             ∧ let w3 := snd (_show_project_summary config project_path w2) in
               let generator := new_ProjectGenerator config in
               (confirms user (screen w3) proceed_question = false
                ∧ ended = (Raised (Exit 1),
                           {| files := files w;
                              screen := screen w3 ++ cancelled proceed_question |}))
               ∨ (confirms user (screen w3) proceed_question = true
                  ∧ ∃ e fs',
                      create_project generator project_path (files w)
                      = (Raise e, fs')
                      ∧ ended
                        = (Raised (Exit 1),
                           {| files := fs';
                              screen :=
                                screen w3
                                ++ [ Confirmed proceed_question true;
                                     TaskAdded "Creating project...";
                                     PrintedError (Exception e) (Some "red") ] |}))
               ∨ (confirms user (screen w3) proceed_question = true
                  ∧ ∃ fs',
                      create_project generator project_path (files w)
                      = (Ok tt, fs')
                      ∧ ended
                        = (Returned tt,
                           snd (_show_success_message project_path config
                                  {| files := fs';
                                     screen :=
                                       screen w3
                                       ++ [ Confirmed proceed_question true;
                                            TaskAdded "Creating project...";
                                            TaskUpdated
                                              "Project created successfully!" ] |})))).
Proof.
  intros project_path q ended.
  assert (ended = create user project_name path python_version description
                    author email interactive w) as Hended by reflexivity.
  clearbody ended. unfold create, try_except in Hended.
  match type of Hended with
  | _ = match ?b with _ => _ end => destruct b as [r wf] eqn:Hbody
  end.
  assert (∀ (k : Path → C unit),
            bind_C match path with
                   | Some path => unit_C path
                   | None => λ w, (Returned (Path_cwd (files w)), w)
                   end k w
            = k (match path with
                 | None => Path_cwd (files w)
                 | Some path => path
                 end) w) as Hpath.
  { intros k. by destruct path. }
  rewrite Hpath in Hbody. clear Hpath. cbv zeta in Hbody.
  change (match path with
          | None => Path_cwd (files w)
          | Some path => path
          end </> project_name) with project_path in Hbody.
  erewrite bind_C_returned in Hbody by reflexivity.
  change ("Project '" +:+ project_name +:+ "' already exists. Overwrite?")
    with q in Hbody.
  change "Proceed with project creation?" with proceed_question in Hbody.
  fold (config_of_arguments project_name python_version description author
          email) in Hbody.
  (* the project directory is there: the first question *)
  assert ((∃ w1,
            (Path_exists project_path (files w) = false ∧ w1 = w
             ∨ Path_exists project_path (files w) = true
               ∧ confirms user (screen w) q = true
               ∧ w1 = show (Confirmed q true) w)
            ∧ files w1 = files w
            ∧ (if Path_exists project_path (files w)
               then
                 let* agreed := Confirm_ask user q in
                 if negb agreed then
                   let* _ := console_print "Operation cancelled." (Some "yellow") in
                   raise (Exit 1)
                 else unit_C tt
               else unit_C tt) w = (Returned tt, w1))
          ∨ Path_exists project_path (files w) = true
            ∧ confirms user (screen w) q = false
            ∧ (r, wf)
              = (Raised (Exit 1),
                 {| files := files w;
                    screen := screen w
                              ++ [ Confirmed q false;
                                   Printed "Operation cancelled."
                                     (Some "yellow") ] |})) as Hfirst.
  { destruct (Path_exists project_path (files w)) eqn:Hfound.
    - destruct (confirms user (screen w) q) eqn:Hq.
      + left. exists (show (Confirmed q true) w).
        split; [right; done |]. split; [done |].
        by rewrite confirm_or_cancel, Hq.
      + right. do 2 (split; [done |]). rewrite <- Hbody.
        erewrite bind_C_raised; [reflexivity |].
        by rewrite confirm_or_cancel, Hq.
    - left. exists w. split; [by left |]. by split. }
  destruct Hfirst as [(w1 & Hw1 & Hfiles1 & Hfirst) | (Hfound & Hq & [= -> ->])].
  2: { left. do 2 (split; [done |]). rewrite Hended.
       unfold bind_C, raise, show, cancelled. simpl. by rewrite <- app_assoc. }
  right. exists w1. split; [exact Hw1 |].
  rewrite (bind_C_returned _ _ _ _ _ Hfirst) in Hbody. clear Hfirst.
  (* the configuration *)
  destruct (config_of_arguments project_name python_version description author
              email) as [given | e] eqn:Hgiven.
  2: { left. exists e. split; [done |].
       erewrite bind_C_raised in Hbody by reflexivity.
       injection Hbody as <- <-. by rewrite Hended. }
  right. erewrite bind_C_returned in Hbody by reflexivity.
  (* the missing information *)
  assert (∃ config w2,
            (interactive = false ∧ config = given ∧ w2 = w1
             ∨ interactive = true
               ∧ _gather_project_info user given w1 = (Returned config, w2))
            ∧ files w2 = files w
            ∧ (if interactive then _gather_project_info user given
               else unit_C given) w1 = (Returned config, w2)) as Hgather.
  { destruct interactive.
    - destruct (gather_spec user given w1)
        as (config & asked & w2 & Hg & Hfiles2 & _).
      exists config, w2. split; [by right |]. split; [congruence | done].
    - exists given, w1. split; [by left |]. by split. }
  destruct Hgather as (config & w2 & Hw2 & Hfiles2 & Hgather).
  exists given, config, w2. split; [done |]. split; [exact Hw2 |].
  rewrite (bind_C_returned _ _ _ _ _ Hgather) in Hbody. clear Hgather.
  (* the summary and the second question *)
  rewrite (bind_C_returned _ _ _ _ _ (summary_returns config project_path w2))
    in Hbody.
  intros w3 generator.
  assert (files w3 = files w) as Hfiles3 by (subst w3; simpl; congruence).
  fold w3 in Hbody. clearbody w3.
  erewrite bind_C_returned in Hbody by reflexivity.
  destruct (confirms user (screen w3) proceed_question) eqn:Hproceed.
  2: { left. split; [done |].
       erewrite bind_C_raised in Hbody by reflexivity.
       injection Hbody as <- <-. rewrite Hended.
       unfold bind_C, raise, show, cancelled. simpl.
       by rewrite Hfiles3, <- !app_assoc. }
  right. erewrite bind_C_returned in Hbody by reflexivity.
  (* the project *)
  erewrite bind_C_returned in Hbody by reflexivity.
  fold generator in Hbody.
  destruct (create_project generator project_path (files w))
    as [[[] | e] fs'] eqn:Hgen.
  - right. split; [done |]. exists fs'. split; [done |].
    erewrite bind_C_returned in Hbody;
      [| rewrite on_files_run; simpl; rewrite Hfiles3, Hgen; reflexivity].
    erewrite bind_C_returned in Hbody by reflexivity.
    rewrite success_returns in Hbody. injection Hbody as <- <-.
    rewrite Hended. f_equal.
    unfold _show_success_message, console_print_panel, show.
    cbn [fst snd files screen]. by rewrite <- !app_assoc.
  - left. split; [done |]. exists e, fs'. split; [done |].
    erewrite bind_C_raised in Hbody;
      [| rewrite on_files_run; simpl; rewrite Hfiles3, Hgen; reflexivity].
    injection Hbody as <- <-. rewrite Hended.
    unfold bind_C, raise, show. simpl. by rewrite <- !app_assoc.
Qed.

(** ** What [create] does to the files, and how it ends *)

Lemma config_of_arguments_fields n pv d a e config :
  config_of_arguments n pv d a e = Ok config →
  config = {| name := n; python_version := pv;
              description := Str.or_else d ("A Python project called " +:+ n);
              author := a; email := e |}
  ∧ n ≠ EmptyString ∧ pv ≠ EmptyString.
Proof.
  unfold config_of_arguments, new_ProjectConfig, __post_init__. simpl.
  destruct n; [done |]. destruct pv; [done |]. simpl.
  destruct (negb (Str.truthy _)); [done |]. by intros [= <-].
Qed.




Lemma asks_is_prompt s q : asks s q → is_prompt s.
Proof. by intros [reply ->]. Qed.

(** The configuration with which [create] calls the generator, and the
    questions it has asked to get it. *)
Lemma gathered (user : User) (interactive : bool) (given config : ProjectConfig)
    (w1 w2 : World) :
  interactive = false ∧ config = given ∧ w2 = w1
  ∨ interactive = true
    ∧ _gather_project_info user given w1 = (Returned config, w2) →
  name config = name given
  ∧ python_version config = python_version given
  ∧ files w2 = files w1
  ∧ ∃ asked, screen w2 = screen w1 ++ asked
             ∧ Forall2 asks asked (if interactive then missing given else []).
Proof.
  intros [(-> & -> & ->) | (-> & Hg)].
  - do 3 (split; [done |]). exists []. split; [by rewrite app_nil_r |].
    apply Forall2_nil_2.
  - destruct (gather_spec user given w1)
      as (c & asked & w' & Hg' & Hfiles & Hscreen & Hasked & Hn & Hpv & _).
    rewrite Hg in Hg'. injection Hg' as <- <-.
    do 3 (split; [done |]). exists asked. by split.
Qed.

(** How [create] ends: the two halves of the statement below. *)
Lemma create_ended (user : User) (project_name : string)
    (path : option Path) (version : string)
    (description author email : option string) (interactive : bool)
    (w : World) :
  let project_path := project_path_of path project_name (files w) in
  match create user project_name path version description author email
          interactive w with
  | (Returned _, w') =>
      ∃ config,
        name config = project_name
        ∧ python_version config = version
        ∧ create_project (new_ProjectGenerator config) project_path (files w)
          = (Ok tt, files w')
  | (Raised e, w') =>
      e = Exit 1
      ∧ (∃ cause, last (screen w') = Some (PrintedError cause (Some "red")))
      ∧ (files w' = files w
         ∨ ∃ config e',
             name config = project_name
             ∧ create_project (new_ProjectGenerator config) project_path
                 (files w)
               = (Raise e', files w'))
  end.
Proof.
  intros project_path.
  destruct (create_cases user project_name path version description
              author email interactive w)
    as [(_ & _ & ->)
       | (w1 & Hw1 & [(e & _ & ->)
                     | (given & config & w2 & Hgiven & Hw2 & Hrest)])].
  - split; [done |]. split; [| by left].
    eexists. unfold cancelled. simpl. by rewrite last_app_cons.
  - assert (files w1 = files w) as Hfiles.
    { by destruct Hw1 as [(_ & ->) | (_ & _ & ->)]. }
    split; [done |]. split; [| by left].
    eexists. unfold show. simpl. by rewrite last_snoc.
  - apply config_of_arguments_fields in Hgiven as (-> & _).
    apply gathered in Hw2 as (Hn & Hpv & _).
    cbv zeta in Hrest.
    destruct Hrest as [(_ & ->) | [(_ & e & fs' & Hgen & ->)
                                  | (_ & fs' & Hgen & ->)]].
    + split; [done |]. split; [| by left].
      eexists. unfold cancelled. simpl. by rewrite last_app_cons.
    + split; [done |]. split.
      * eexists. simpl. by rewrite last_app_cons.
      * right. by exists config, e.
    + by exists config.
Qed.



Ltac among_shown :=
  rewrite ?elem_of_app;
  repeat first [ by apply list_elem_of_here
               | by left
               | left; by apply list_elem_of_here
               | right
               | apply list_elem_of_further ].


(** ** What [create] asks *)

Lemma missing_questions config q :
  q ∈ missing config → q ∈ gather_questions (name config).
Proof.
  unfold missing, gather_questions. rewrite !elem_of_app.
  destruct (falsy (author config)), (falsy (email config)),
    (description_missing config);
    intros [H | [H | H]];
    try (by apply elem_of_nil in H);
    apply list_elem_of_singleton in H as ->; among_shown.
Qed.

Lemma Forall2_asks_questions asked qs :
  Forall2 asks asked qs →
  Forall (λ s, ∃ q, q ∈ qs ∧ asks s q) asked.
Proof.
  induction 1 as [|s q asked qs Hs _ IH]; [by constructor |].
  constructor.
  - exists q. split; [apply list_elem_of_here | done].
  - eapply Forall_impl; [exact IH |]. intros s' (q' & Hin & Hq).
    exists q'. split; [by apply list_elem_of_further | done].
Qed.

(** X23: whatever [create] prompts for is one of the three questions of
    [_gather_project_info], and without the interactive mode it prompts
    for nothing. *)
Theorem create_prompts (user : User) (project_name : string)
    (path : option Path) (version : string)
    (description author email : option string) (interactive : bool)
    (w : World) :
  let ended :=
    create user project_name path version description author email
      interactive w in
  ∃ new,
    screen (snd ended) = screen w ++ new
    ∧ Forall (λ s, is_prompt s →
                   interactive = true
                   ∧ ∃ q, q ∈ gather_questions project_name ∧ asks s q) new.
Proof.
  intros ended. subst ended.
  destruct (create_cases user project_name path version description
              author email interactive w)
    as [(_ & _ & ->)
       | (w1 & Hw1 & [(e & _ & ->)
                     | (given & config & w2 & Hgiven & Hw2 & Hrest)])].
  - eexists. split; [reflexivity |].
    repeat first [ apply Forall_nil_2 | apply Forall_cons_2 ]; by intros [].
  - destruct Hw1 as [(_ & ->) | (_ & _ & ->)]; simpl.
    + eexists. split; [reflexivity |].
      repeat first [ apply Forall_nil_2 | apply Forall_cons_2 ]; by intros [].
    + eexists. split; [by rewrite <- app_assoc |].
      repeat first [ apply Forall_nil_2 | apply Forall_cons_2 ]; by intros [].
  - assert (∃ first, screen w1 = screen w ++ first
                     ∧ Forall (λ s, ¬ is_prompt s) first)
      as (first & Hfirst & Hnone).
    { destruct Hw1 as [(_ & ->) | (_ & _ & ->)].
      - exists []. split; [by rewrite app_nil_r | by constructor].
      - eexists. split; [reflexivity |].
        repeat first [ apply Forall_nil_2 | apply Forall_cons_2 ]; by intros []. }
    apply config_of_arguments_fields in Hgiven as (Hfields & _).
    apply gathered in Hw2 as (_ & _ & _ & asked & Hasked & Hqs).
    assert (Forall (λ s, is_prompt s →
                         interactive = true
                         ∧ ∃ q, q ∈ gather_questions project_name ∧ asks s q)
              (first ++ asked)) as Hbefore.
    { apply Forall_app. split.
      - eapply Forall_impl; [exact Hnone |]. by intros s Hs Hp.
      - destruct interactive.
        + apply Forall2_asks_questions in Hqs.
          eapply Forall_impl; [exact Hqs |].
          intros s (q & Hin & Hq) _. split; [done |]. exists q.
          split; [| done]. apply missing_questions in Hin.
          by rewrite Hfields in Hin.
        + apply Forall2_nil_inv_r in Hqs as ->. by constructor. }
    destruct (summary_files config (project_path_of path project_name (files w))
                w2) as (_ & _ & panel & Hpanel & Hnp).
    cbv zeta in Hrest. rewrite Hpanel, Hasked, Hfirst in Hrest.
    destruct Hrest as [(_ & ->) | [(_ & e & fs' & Hgen & ->)
                                  | (_ & fs' & Hgen & ->)]].
    all: eexists;
      (split;
       [ unfold _show_success_message, console_print_panel, show;
         cbn [fst snd files screen]; rewrite <- ?app_assoc;
         rewrite (app_assoc first asked); reflexivity |]).
    all: apply Forall_app; (split; [exact Hbefore |]).
    all: repeat first [ apply Forall_nil_2 | apply Forall_cons_2 ];
      first [ done | by intros [] ].
Qed.

(** ** What [create] rejects *)



(** ** Gathering the missing information *)

Lemma missing_nil config :
  missing config = [] →
  falsy (author config) = false ∧ falsy (email config) = false
  ∧ description_missing config = false.
Proof.
  unfold missing.
  by destruct (falsy (author config)), (falsy (email config)),
    (description_missing config).
Qed.

(** X20: [_gather_project_info] never raises and leaves the files, the name
    and the Python version alone. It asks for the author and for the email
    when they are absent or empty, and for the description when it is
    empty or the one [create] gives by default, in this order; what it
    does not ask for it keeps; and with nothing to ask for it changes
    nothing at all. *)
Theorem gather_project_info_asks_what_is_missing (user : User)
    (config : ProjectConfig) (w : World) :
  ∃ config' asked w',
    _gather_project_info user config w = (Returned config', w')
    ∧ files w' = files w ∧ screen w' = screen w ++ asked
    ∧ Forall2 asks asked (missing config)
    ∧ name config' = name config
    ∧ python_version config' = python_version config
    ∧ (falsy (author config) = false → author config' = author config)
    ∧ (falsy (email config) = false → email config' = email config)
    ∧ (description_missing config = false →
       description config' = description config)
    ∧ (missing config = [] → config' = config ∧ w' = w).
Proof.
  destruct (gather_spec user config w)
    as (config' & asked & w' & Hrun & Hfiles & Hscreen & Hasked & Hn & Hpv
        & Ha & He & Hd & _).
  exists config', asked, w'. do 9 (split; [done |]).
  intros Hnone. rewrite Hnone in Hasked.
  apply Forall2_nil_inv_r in Hasked as ->. rewrite app_nil_r in Hscreen.
  apply missing_nil in Hnone as (Hna & Hne & Hnd).
  specialize (Ha Hna). specialize (He Hne). specialize (Hd Hnd).
  split.
  - destruct config', config. simpl in *. congruence.
  - destruct w', w. simpl in *. congruence.
Qed.

Lemma gather_project_info_asks_what_is_missing_witness :
  _gather_project_info agreeable full_config (world_of used_fs)
  = (Returned full_config, world_of used_fs).
Proof.
  destruct (gather_project_info_asks_what_is_missing agreeable full_config
              (world_of used_fs))
    as (config' & asked & w' & Hrun & _ & _ & _ & _ & _ & _ & _ & _ & Hsame).
  destruct (Hsame eq_refl) as [-> ->]. exact Hrun.
Defined.

(** ** The list of templates *)

(** X25: [list_templates] prints a heading and a table of two columns with one
    row for each template of the catalog and no other: the first entry of
    a row is a name [get_template_config] knows, and every name it knows
    has its row. *)
Theorem list_templates_lists_the_catalog (w : World) :
  ∃ table,
    list_templates w
    = (Returned tt,
       {| files := files w;
          screen := screen w
                    ++ [ Printed "Available project templates:" (Some "bold blue");
                         PrintedTable table ] |})
    ∧ map fst (columns table) = ["Template"; "Description"]
    ∧ Forall (λ row, List.length row = 2) (rows table)
    ∧ (∀ id, (∃ shown_description, [id; shown_description] ∈ rows table)
             ↔ ∃ t, get_template_config id = Ok t).
Proof.
  eexists. split.
  { unfold list_templates, bind_C, console_print, show. simpl.
    by rewrite <- app_assoc. }
  simpl. split; [done |]. split.
  { repeat first [ apply Forall_nil_2 | apply Forall_cons_2 ]; done. }
  intros id. split.
  - intros (d & Hin).
    repeat (apply elem_of_cons in Hin as [[= -> ->] | Hin]; [by eexists |]).
    by apply elem_of_nil in Hin.
  - intros (t & Hget). unfold get_template_config, get_project_templates in Hget.
    destruct (decide (id = "standard")) as [-> | H1];
      [eexists; among_shown |].
    rewrite lookup_insert_ne in Hget by done.
    destruct (decide (id = "minimal")) as [-> | H2];
      [eexists; among_shown |].
    rewrite lookup_insert_ne in Hget by done.
    destruct (decide (id = "web")) as [-> | H3];
      [eexists; among_shown |].
    rewrite lookup_insert_ne in Hget by done. by rewrite lookup_empty in Hget.
Qed.

(** ** From the command line to the files *)

(** X26: when [create] returns for a project name that makes a plain package
    name, the ten files are under the project path, each with the text
    rendered from a configuration that has the name and the Python version
    of the command line; [.python-version] holds that version. *)
Theorem create_writes_the_project (user : User) (project_name : string)
    (path : option Path) (version : string)
    (description author email : option string) (interactive : bool)
    (w : World) :
  let project_path := project_path_of path project_name (files w) in
  let ended :=
    create user project_name path version description author email
      interactive w in
  plain (package_name_as_specified project_name) = true →
  fst ended = Returned tt →
  ∃ built,
    name built = project_name
    ∧ python_version built = version
    ∧ (∀ p content,
         (p, content) ∈ files_written (new_ProjectGenerator built) project_path →
         read_text p (files (snd ended)) = Ok content)
    ∧ read_text (project_path </> ".python-version") (files (snd ended))
      = Ok version.
Proof.
  intros project_path ended Hplain Hret. subst ended.
  pose proof (create_ended user project_name path version description author
                email interactive w) as Hend.
  cbv zeta in Hend. fold project_path in Hend.
  destruct (create user project_name path version description author email
              interactive w) as [[[] | e] w'] eqn:Hrun; [| done].
  destruct Hend as (built & Hname & Hversion & Hgen).
  exists built. do 2 (split; [done |]). cbn [snd].
  destruct (generated_after_return (new_ProjectGenerator built) project_path
              (files w) (files w')) as (r & _ & Hfiles & _).
  { simpl. by rewrite package_name_one_pass, Hname. }
  { exact Hgen. }
  split; [exact Hfiles |].
  rewrite <- Hversion. apply Hfiles. unfold files_written.
  apply list_elem_of_further, list_elem_of_here.
Qed.

Lemma create_writes_the_project_witness :
  read_text (parse_path "work/demo/.python-version")
    (files (snd (create agreeable "demo" (Some (parse_path "work")) "3.12" None
                   None None true (world_of used_fs))))
  = Ok "3.12".
Proof.
  destruct (create_writes_the_project agreeable "demo" (Some (parse_path "work"))
              "3.12" None None None true (world_of used_fs) eq_refl)
    as (config & _ & _ & _ & Hversion).
  - by vm_compute.
  - exact Hversion.
Defined.

(** ** The panels *)


